(** * TributeWrapper: webhook verification, currency conversion and RCON
      response classification

    A shallow embedding of [main.py] and [rcon_manager.py], and of the
    start-up code they rest on: [logger.py], [config_loader.py] and the
    constructor of the database manager of [database.py].  Python [str]
    values are sequences of Unicode code points, [bytes] values are
    sequences of octets, dictionaries are finite maps, and every function
    that can raise returns a [result].  The functions that write to the
    error log, open an RCON session or store a webhook row run in a small
    state-and-exception monad over the [World] they act on.

    What is kept and what is not:
    - the values [json.loads] and the YAML loader produce are dynamically
      typed ([pyval]); a method or an operator applied to a value of the
      wrong type raises, as in Python;
    - an [int] is an integer and a [float] is a binary64 number with its
      rounding, infinities and NaN; [float(n)], [n / 100] and [int(x)]
      raise where CPython raises, and so does [str(n)] for a computed
      amount beyond CPython's limit of 4300 digits.  The integers of a
      decoded document stay within that limit (the decoders refuse longer
      ones), so formatting a value of the payload is taken not to fail;
    - the request path is modelled with debug mode off: the argument of
      [logger.debug] is evaluated and nothing is written.
      [logger.error] appends its line to the error log of the world.
      [logger.info] writes the line as strict UTF-8 and raises
      [UnicodeEncodeError] on a lone surrogate: this is modelled where
      the line holds the player name of a donation ([log_info]); the
      other lines of [logger.info] and the writes of [logger.error] are
      taken to succeed.  The logger's own files are the subject of the
      module [Logger];
    - the RCON server and the webhook storage are collaborators with any
      behaviour ([Env]); the Unicode tables, HMAC-SHA256, [json.loads],
      [repr] and [int] of a string are library functions ([Builtins]);
    - at start-up the YAML document and the process environment are
      inputs of [load_config], and what the database initialisers do
      beyond reading their settings (directories, connections, tables)
      is a collaborator that completes or raises. *)

From Stdlib Require Import ZArith NArith QArith Qround List Ascii String.
From Stdlib Require Import DecimalString Lia Floats.SpecFloat.
From stdpp Require Import gmap list.

Set Warnings "-register-all".
Local Open Scope Z_scope.

(** ** Python strings and bytes *)

Abbreviation pystr := (list N).
Abbreviation bytes := (list Byte.byte).

Definition byte_of_N (n : N) : Byte.byte :=
  match Byte.of_N n with Some b => b | None => Byte.x00 end.

(** Source literals are written as UTF-8 text and decoded to code points;
    [need] counts the continuation bytes still expected. *)
Fixpoint utf8_decode_from (need : nat) (acc : N) (bs : list N) : pystr :=
  match bs with
  | [] => []
  | b :: rest =>
    match need with
    | O =>
      if (b <? 128)%N then b :: utf8_decode_from 0 0 rest
      else if (b <? 224)%N then utf8_decode_from 1 (N.land b 31) rest
      else if (b <? 240)%N then utf8_decode_from 2 (N.land b 15) rest
      else utf8_decode_from 3 (N.land b 7) rest
    | S O => (acc * 64 + N.land b 63)%N :: utf8_decode_from 0 0 rest
    | S k => utf8_decode_from k (acc * 64 + N.land b 63)%N rest
    end
  end.

Definition u (lit : string) : pystr :=
  utf8_decode_from 0 0 (map Byte.to_N (list_byte_of_string lit)).

Definition is_ascii (c : N) : bool := (c <? 128)%N.

(** [str(n)] for an [int]. *)
Definition str_of_int (n : Z) : pystr := u (NilZero.string_of_int (Z.to_int n)).

Definition pystr_eqb (a b : pystr) : bool := bool_decide (a = b).

(** [s.startswith(p)] *)
Fixpoint starts_with (p s : pystr) : bool :=
  match p, s with
  | [], _ => true
  | _ :: _, [] => false
  | a :: p', b :: s' => (a =? b)%N && starts_with p' s'
  end.

(** [p in s] *)
Fixpoint contains (p s : pystr) : bool :=
  starts_with p s ||
  match s with
  | [] => false
  | _ :: s' => contains p s'
  end.

(** [s.replace(old, new)] for a non-empty [old]: matches are taken from the
    left and do not overlap; [skip] counts the characters of the current
    match still to be dropped. *)
Fixpoint replace_from (old new : pystr) (skip : nat) (s : pystr) : pystr :=
  match s with
  | [] => []
  | c :: rest =>
    match skip with
    | S k => replace_from old new k rest
    | O =>
      if starts_with old s
      then new ++ replace_from old new (Nat.pred (length old)) rest
      else c :: replace_from old new 0 rest
    end
  end.

Definition replace (old new s : pystr) : pystr := replace_from old new 0 s.

(** The code points for which [str.isspace] holds; [strip()] and [split()]
    without arguments use this set. *)
Definition whitespace : list N :=
  [9; 10; 11; 12; 13; 28; 29; 30; 31; 32; 133; 160; 5760;
   8192; 8193; 8194; 8195; 8196; 8197; 8198; 8199; 8200; 8201; 8202;
   8232; 8233; 8239; 8287; 12288]%N.

Definition is_space (c : N) : bool := existsb (N.eqb c) whitespace.

Fixpoint lstrip (s : pystr) : pystr :=
  match s with
  | c :: rest => if is_space c then lstrip rest else s
  | [] => []
  end.

(** [s.strip()] *)
Definition strip (s : pystr) : pystr := rev (lstrip (rev (lstrip s))).

(** [s.split()]: maximal runs of non-whitespace characters; [cur] holds the
    current run, last character first. *)
Fixpoint split_from (cur : pystr) (s : pystr) : list pystr :=
  match s with
  | [] => match cur with [] => [] | _ => [rev cur] end
  | c :: rest =>
    if is_space c
    then match cur with [] => split_from [] rest | _ => rev cur :: split_from [] rest end
    else split_from (c :: cur) rest
  end.

Definition split (s : pystr) : list pystr := split_from [] s.

(** UTF-8 encoding of one code point, [None] for a surrogate or a value
    that is not a code point. *)
Definition utf8_encode_char (c : N) : option (list N) :=
  if (c <? 128)%N then Some [c]
  else if (c <? 2048)%N then Some [192 + c / 64; 128 + c mod 64]%N
  else if (55296 <=? c)%N && (c <=? 57343)%N then None
  else if (c <? 65536)%N then
    Some [224 + c / 4096; 128 + (c / 64) mod 64; 128 + c mod 64]%N
  else if (c <? 1114112)%N then
    Some [240 + c / 262144; 128 + (c / 4096) mod 64;
          128 + (c / 64) mod 64; 128 + c mod 64]%N
  else None.

Fixpoint utf8_encode (s : pystr) : option bytes :=
  match s with
  | [] => Some []
  | c :: rest =>
    match utf8_encode_char c, utf8_encode rest with
    | Some bs, Some tl => Some (map byte_of_N bs ++ tl)
    | _, _ => None
    end
  end.

(** [bytes.hex()]: two lowercase hexadecimal digits per octet. *)
Definition hex_digit (n : N) : N := if (n <? 10)%N then (48 + n)%N else (87 + n)%N.

Definition hex_encode (b : bytes) : pystr :=
  flat_map (fun x => [hex_digit (Byte.to_N x / 16); hex_digit (Byte.to_N x mod 16)]) b.

(** ** Exceptions and results *)

Inductive exn_class : Type :=
  | TypeError
  | ValueError
  | OverflowError
  | IndexError
  | AttributeError
  | UnicodeEncodeError
  | UnicodeDecodeError
  | JSONDecodeError
  | ConnectionRefusedError
  | OtherException
  | HTTPException (status_code : Z).

(** An exception object: its class and [str(e)]. *)
Record exn : Type := mkExn { exn_class_of : exn_class; exn_str : pystr }.

Inductive result (A : Type) : Type :=
  | Ok (a : A)
  | Raise (e : exn).
Arguments Ok {A} a.
Arguments Raise {A} e.

Definition raise_class {A} (c : exn_class) : result A := Raise (mkExn c []).

(** ** Python numbers

    A [float] is a binary64 number: the library's [spec_float] with 53
    bits of precision and the exponent bound 1024, rounded to nearest,
    ties to even. *)

Abbreviation pyfloat := spec_float.

(** [x * y] and [x / y] on floats; neither raises for a divisor that is
    not zero. *)
Definition float_mul : pyfloat -> pyfloat -> pyfloat := SFmul 53 1024.
Definition float_div : pyfloat -> pyfloat -> pyfloat := SFdiv 53 1024.

(** [x == 0]: both zeros are, NaN is not. *)
Definition float_is_zero (x : pyfloat) : bool :=
  match x with
  | S754_zero _ => true
  | _ => false
  end.


(** [float(z)], as [int * float] and [float * int] convert the [int]: the
    nearest float, and [OverflowError] when that is beyond the largest
    one. *)
Definition float_of_int (z : Z) : result pyfloat :=
  match binary_normalize 53 1024 z 0 false with
  | S754_infinity _ => Raise (mkExn OverflowError (u "int too large to convert to float"))
  | x => Ok x
  end.

(** The float 100.0 *)
Definition float_100 : pyfloat := S754_finite false 7036874417766400 (-46).

(** [int(x)] truncates towards zero. *)
Definition int_of_float (x : pyfloat) : result Z :=
  match x with
  | S754_zero _ => Ok 0
  | S754_finite s m e => Ok (cond_Zopp s (Z.shiftl (Zpos m) e))
  | S754_infinity _ =>
    Raise (mkExn OverflowError (u "cannot convert float infinity to integer"))
  | S754_nan => Raise (mkExn ValueError (u "cannot convert float NaN to integer"))
  end.

(** [a / 100] for an [int]: the float nearest to the quotient, and
    [OverflowError] when that is beyond the largest one. *)
Definition int_truediv_100 (a : Z) : result pyfloat :=
  match a with
  | 0 => Ok (S754_zero false)
  | _ =>
    let '(q, e, l) := SFdiv_core_binary 53 1024 (Z.abs a) 0 100 0 in
    match binary_round_aux 53 1024 (a <? 0) q e l with
    | S754_infinity _ =>
      Raise (mkExn OverflowError (u "integer division result too large for a float"))
    | x => Ok x
    end
  end.


(** [str(z)] for an [int]: CPython refuses to format an [int] of more
    than [sys.get_int_max_str_digits()] digits, 4300 unless configured
    otherwise. *)
Definition int_max_str_digits : Z := 4300.

Definition int_str (z : Z) : result pystr :=
  if Z.abs z <? 10 ^ int_max_str_digits then Ok (str_of_int z)
  else Raise (mkExn ValueError
         (u "Exceeds the limit (4300 digits) for integer string conversion; use sys.set_int_max_str_digits() to increase the limit")).

(** ** Python values *)

(** What [json.loads] and the YAML loader produce. *)
Inductive pyval : Type :=
  | PNone
  | PBool (b : bool)
  | PInt (z : Z)
  | PFloat (x : pyfloat)
  | PStr (s : pystr)
  | PList (l : list pyval)
  | PDict (d : gmap pystr pyval).

(** A number of the rate table. *)
Inductive pynum : Type :=
  | NInt (z : Z)
  | NFloat (x : pyfloat).

(** [r == 0] *)
Definition num_is_zero (r : pynum) : bool :=
  match r with
  | NInt z => z =? 0
  | NFloat x => float_is_zero x
  end.


(** [bool(v)] *)
Definition truthy (v : pyval) : bool :=
  match v with
  | PNone => false
  | PBool b => b
  | PInt z => negb (z =? 0)
  | PFloat x => negb (float_is_zero x)
  | PStr s => match s with [] => false | _ => true end
  | PList l => match l with [] => false | _ => true end
  | PDict d => negb (bool_decide (dom d = ∅))
  end.

(** [d.get(key, default)] on a [dict] *)
Definition dict_get (d : gmap pystr pyval) (key : pystr) (default : pyval) : pyval :=
  match d !! key with
  | Some x => x
  | None => default
  end.

(** [v.get(key, default)]: only a [dict] has the method. *)
Definition py_get (v : pyval) (key : pystr) (default : pyval) : result pyval :=
  match v with
  | PDict d => Ok (dict_get d key default)
  | _ => raise_class AttributeError
  end.

(** [int * float]: the [int] is converted first. *)
Definition int_mul_float (a : Z) (r : pyfloat) : result pyval :=
  match float_of_int a with
  | Ok x => Ok (PFloat (float_mul x r))
  | Raise e => Raise e
  end.

(** [amount * rate].  A string or a list is repeated by an integer rate;
    the memory such a repetition may take is not bounded here. *)
Definition py_mul (amount : pyval) (rate : pynum) : result pyval :=
  match amount, rate with
  | PInt a, NInt r => Ok (PInt (a * r))
  | PInt a, NFloat r => int_mul_float a r
  | PBool b, NInt r => Ok (PInt (Z.b2z b * r))
  | PBool b, NFloat r => int_mul_float (Z.b2z b) r
  | PFloat x, NInt r =>
    match float_of_int r with
    | Ok y => Ok (PFloat (float_mul x y))
    | Raise e => Raise e
    end
  | PFloat x, NFloat r => Ok (PFloat (float_mul x r))
  | PStr s, NInt r => Ok (PStr (concat (repeat s (Z.to_nat r))))
  | PList l, NInt r => Ok (PList (concat (repeat l (Z.to_nat r))))
  | _, _ => raise_class TypeError
  end.

(** [amount / 100] *)
Definition py_truediv_100 (amount : pyval) : result pyval :=
  match amount with
  | PInt a =>
    match int_truediv_100 a with
    | Ok x => Ok (PFloat x)
    | Raise e => Raise e
    end
  | PBool b =>
    match int_truediv_100 (Z.b2z b) with
    | Ok x => Ok (PFloat x)
    | Raise e => Raise e
    end
  | PFloat x => Ok (PFloat (float_div x float_100))
  | _ => raise_class TypeError
  end.

(** [v == s] for a string literal [s] *)
Definition py_eq_str (v : pyval) (s : pystr) : bool :=
  match v with
  | PStr x => pystr_eqb x s
  | _ => false
  end.

(** ** Library functions

    The Unicode case tables, the keyed hash, the JSON decoder and the
    [repr]/[int] conversions are Python's, not this repository's: they are
    an interface here.  On ASCII text the case conversions are fixed. *)

Definition ascii_lower (c : N) : N :=
  if (65 <=? c)%N && (c <=? 90)%N then (c + 32)%N else c.

Definition ascii_upper (c : N) : N :=
  if (97 <=? c)%N && (c <=? 122)%N then (c - 32)%N else c.

Class Builtins : Type := {
  (** [s.lower()] and [s.upper()] *)
  str_lower : pystr -> pystr;
  str_upper : pystr -> pystr;
  str_lower_ascii : forall s, forallb is_ascii s = true -> str_lower s = map ascii_lower s;
  str_upper_ascii : forall s, forallb is_ascii s = true -> str_upper s = map ascii_upper s;
  (** [hmac.new(key, msg, hashlib.sha256).digest()] *)
  hmac_sha256 : bytes -> bytes -> bytes;
  (** [json.loads(body)] *)
  json_loads : bytes -> result pyval;
  (** [repr(v)] of a float, a list or a dict, and [int(s)] of a string *)
  py_repr : pyval -> pystr;
  int_of_str : pystr -> result Z
}.

(** [int(v)] *)
Definition py_int `{Builtins} (v : pyval) : result Z :=
  match v with
  | PInt z => Ok z
  | PBool b => Ok (Z.b2z b)
  | PFloat x => int_of_float x
  | PStr s => int_of_str s
  | _ => raise_class TypeError
  end.

(** [str(v)], as an f-string formats a value. *)
Definition py_str `{Builtins} (v : pyval) : pystr :=
  match v with
  | PNone => u "None"
  | PBool true => u "True"
  | PBool false => u "False"
  | PInt z => str_of_int z
  | PStr s => s
  | _ => py_repr v
  end.

(** ** The world a request acts on *)

Inductive status : Type := Success | Error | Received.

Definition status_str (st : status) : pystr :=
  match st with
  | Success => u "success"
  | Error => u "error"
  | Received => u "received"
  end.

(** A row of the [webhooks] table, as [save_tribute_webhook] receives it. *)
Record WebhookRecord : Type := mkWebhookRecord {
  rec_webhook_type : pyval;
  rec_payload : pyval;
  rec_status : status;
  rec_player_name : option pystr;
  rec_game_currency : Z;
  rec_error_message : option pystr
}.

(** What the request leaves behind: the lines written by [logger.error],
    the commands for which an RCON session was opened, and the stored
    webhook rows. *)
Record World : Type := mkWorld {
  error_log : list pystr;
  rcon_sessions : list pystr;
  webhooks : list WebhookRecord
}.

(** The collaborators during one request: what an RCON session for a
    command yields (the response, or the exception of the connection or
    of the exchange), and whether storing a row fails. *)
Record Env : Type := mkEnv {
  rcon_server : pystr -> result pystr;
  storage : WebhookRecord -> option exn
}.

(** ** The state-and-exception monad *)

Definition M (A : Type) : Type := World -> result A * World.

Definition ret {A} (a : A) : M A := fun w => (Ok a, w).

Definition bind {A B} (m : M A) (k : A -> M B) : M B :=
  fun w =>
    match m w with
    | (Ok a, w') => k a w'
    | (Raise e, w') => (Raise e, w')
    end.

Definition raise {A} (e : exn) : M A := fun w => (Raise e, w).

Definition lift {A} (r : result A) : M A := fun w => (r, w).

(** [try: body / except ...: handler / except ...: handler]: the first
    clause whose test accepts the exception handles it. *)
Fixpoint dispatch {A} (clauses : list ((exn -> bool) * (exn -> M A))) (e : exn) : M A :=
  match clauses with
  | [] => raise e
  | (catches, handler) :: rest => if catches e then handler e else dispatch rest e
  end.

Definition try_except {A} (body : M A) (clauses : list ((exn -> bool) * (exn -> M A))) : M A :=
  fun w =>
    match body w with
    | (Ok a, w') => (Ok a, w')
    | (Raise e, w') => dispatch clauses e w'
    end.

Notation "'let*' x ':=' m 'in' k" := (bind m (fun x => k))
  (at level 10, x pattern, m at level 100, k at level 200).
Notation "'run' m 'in' k" := (bind m (fun _ => k))
  (at level 10, m at level 100, k at level 200).

#[global] Instance exn_class_eq_dec : EqDecision exn_class.
Proof. solve_decision. Defined.

(** [except Exception] and [except C] *)
Definition any_exception (e : exn) : bool := true.
Definition has_class (c : exn_class) (e : exn) : bool := bool_decide (exn_class_of e = c).

(** [logger.error(msg)] *)
Definition log_error (msg : pystr) : M unit :=
  fun w => (Ok tt, mkWorld (error_log w ++ [msg]) (rcon_sessions w) (webhooks w)).

(** [logger.info(msg)], where modelled with its failure: the console and
    [info.log] take the line as strict UTF-8, so a lone surrogate raises
    [UnicodeEncodeError] (whose text, naming the character and its
    position, is not kept). *)
Definition log_info (msg : pystr) : M unit :=
  fun w =>
    match utf8_encode msg with
    | Some _ => (Ok tt, w)
    | None => (raise_class UnicodeEncodeError, w)
    end.

(** [with MCRcon(host, password, port) as mcr: response = mcr.command(command)] *)
Definition rcon_session (env : Env) (command : pystr) : M pystr :=
  fun w => (rcon_server env command,
            mkWorld (error_log w) (rcon_sessions w ++ [command]) (webhooks w)).

(** [db_manager.save_tribute_webhook(...)] *)
Definition save_tribute_webhook (env : Env) (r : WebhookRecord) : M unit :=
  fun w =>
    match storage env r with
    | None => (Ok tt, mkWorld (error_log w) (rcon_sessions w) (webhooks w ++ [r]))
    | Some e => (Raise e, w)
    end.

(** ** rcon_manager.py *)

Module RconManager.

(** The fields [__init__] reads from [config['minecraft_rcon']]. *)
Record t : Type := mk {
  host : pystr;
  port : Z;
  password : pystr;
  command_template : pystr;
  success_patterns : list pystr;
  error_patterns : list pystr
}.

Definition section_sign : N := 167.

(** [[0-9a-f]] under [re.IGNORECASE] *)
Definition is_hex_digit (c : N) : bool :=
  ((48 <=? c) && (c <=? 57) || (97 <=? c) && (c <=? 102) || (65 <=? c) && (c <=? 70))%N.

(** [[0-9a-fk-or]] under [re.IGNORECASE]; the Kelvin sign U+212A lowers
    to [k] and is matched too. *)
Definition is_format_code (c : N) : bool :=
  (is_hex_digit c
   || (107 <=? c) && (c <=? 111) || (75 <=? c) && (c <=? 79)
   || (c =? 114) || (c =? 82) || (c =? 8490))%N.

(** [(?:§[0-9a-f]){n}] at the start of [s] *)
Fixpoint hex_pairs (n : nat) (s : pystr) : bool :=
  match n with
  | O => true
  | S k =>
    match s with
    | p :: d :: rest => (p =? section_sign)%N && is_hex_digit d && hex_pairs k rest
    | _ => false
    end
  end.

(** [§x(?:§[0-9a-f]){6}] at the start of [s]: the length of the match *)
Definition match_hex_color (s : pystr) : option nat :=
  match s with
  | p :: x :: rest =>
    if (p =? section_sign)%N && ((x =? 120) || (x =? 88))%N && hex_pairs 6 rest
    then Some 14%nat else None
  | _ => None
  end.

(** [§[0-9a-fk-or]] at the start of [s]: the length of the match *)
Definition match_format_code (s : pystr) : option nat :=
  match s with
  | p :: c :: _ =>
    if (p =? section_sign)%N && is_format_code c then Some 2%nat else None
  | _ => None
  end.

(** [re.sub(pattern, '', text)] for a pattern that matches no empty string:
    the text is scanned from the left, a match is dropped whole and the
    scan resumes after it; [skip] counts the characters of the current
    match still to be dropped. *)
Fixpoint re_sub_empty (match_at : pystr -> option nat) (skip : nat) (text : pystr) : pystr :=
  match text with
  | [] => []
  | c :: rest =>
    match skip with
    | S k => re_sub_empty match_at k rest
    | O =>
      match match_at text with
      | Some (S n) => re_sub_empty match_at n rest
      | _ => c :: re_sub_empty match_at 0 rest
      end
    end
  end.

Definition _strip_minecraft_colors (text : pystr) : pystr :=
  let text := re_sub_empty match_hex_color 0 text in
  let text := re_sub_empty match_format_code 0 text in
  text.

Definition _replace_placeholders (pattern player_name : pystr) (amount : Z) : pystr :=
  let result := replace (u "{player}") player_name pattern in
  let result := replace (u "{amount}") (str_of_int amount) result in
  result.

Section WithBuiltins.
Context `{Builtins}.

(** One [for ... in patterns] loop of [_check_response]: [true] when the
    loop body reaches its [return]. *)
Fixpoint pattern_loop (patterns : list pystr) (player_name : pystr) (amount : Z)
    (response_lower : pystr) : bool :=
  match patterns with
  | [] => false
  | p :: rest =>
    let pattern := _replace_placeholders p player_name amount in
    if contains (str_lower pattern) response_lower then true
    else pattern_loop rest player_name amount response_lower
  end.

Definition _check_response (self : t) (response player_name : pystr) (amount : Z) : bool :=
  let cleaned_response := _strip_minecraft_colors response in
  let response_lower := str_lower cleaned_response in
  if pattern_loop (error_patterns self) player_name amount response_lower then false
  else if pattern_loop (success_patterns self) player_name amount response_lower then true
  else if negb (truthy (PList (map PStr (success_patterns self)))) then true
  else false.

(** [str(amount)] of line 70 stands before the [try]: what it raises
    leaves the function.  Inside the [try] the classifier formats the same
    amount again, which cannot fail any more. *)
Definition execute_command (self : t) (env : Env) (player_name : pystr) (amount : Z)
    : M (bool * pystr) :=
  let command := replace (u "%player_name%") player_name (command_template self) in
  let* amount_str := lift (int_str amount) in
  let command := replace (u "%amount%") amount_str command in
  try_except
    (let* response := rcon_session env command in
     let is_success := _check_response self response player_name amount in
     ret (is_success, response))
    [ (has_class ConnectionRefusedError, fun _ =>
         let error_msg :=
           u "Не удалось подключиться к RCON (" ++ host self ++ u ":"
             ++ str_of_int (port self) ++ u ")" in
         run log_error (u "❌ " ++ error_msg) in
         ret (false, error_msg));
      (any_exception, fun e =>
         let error_msg := u "Ошибка выполнения RCON команды: " ++ exn_str e in
         run log_error (u "❌ " ++ error_msg) in
         ret (false, error_msg)) ].

(** The f-string of the debug line 171 formats the amount before
    anything else is done. *)
Definition add_currency_to_player (self : t) (env : Env) (player_name : pystr) (amount : Z)
    : M bool :=
  let* amount_str := lift (int_str amount) in
  let* (success, response) := execute_command self env player_name amount in
  run (if success then
         log_info (u "✅ RCON: Успешно начислено " ++ amount_str
                     ++ u " валюты игроку " ++ player_name)
       else
         run log_error (u "❌ RCON: Ошибка начисления валюты игроку " ++ player_name) in
         log_error (u "📋 Ответ сервера: " ++ response)) in
  ret success.

End WithBuiltins.

End RconManager.

(** ** main.py *)

Module Main.

(** The parts of [config.yaml] the request path reads, with the RCON
    manager built from it at start-up. *)
Record Config : Type := mkConfig {
  api_key : pystr;
  currency_rates : gmap pystr pynum;
  rcon_manager : RconManager.t
}.

(** The result dictionary: a donation result has the four keys, the
    result of [process_other_webhook] has [status] and [reason] only. *)
Inductive ProcessingResult : Type :=
  | DonationResult (st : status) (reason : pystr) (player_name : option pystr)
      (game_currency : Z)
  | OtherResult (st : status) (reason : pystr).

Definition result_status (r : ProcessingResult) : status :=
  match r with
  | DonationResult st _ _ _ => st
  | OtherResult st _ => st
  end.

Definition result_reason (r : ProcessingResult) : pystr :=
  match r with
  | DonationResult _ reason _ _ => reason
  | OtherResult _ reason => reason
  end.

(** [result.get('player_name')] *)
Definition result_player_name (r : ProcessingResult) : option pystr :=
  match r with
  | DonationResult _ _ p _ => p
  | OtherResult _ _ => None
  end.

(** [result.get('game_currency', 0)] *)
Definition result_game_currency (r : ProcessingResult) : Z :=
  match r with
  | DonationResult _ _ _ g => g
  | OtherResult _ _ => 0
  end.

Record Request : Type := mkRequest {
  body : bytes;
  trbt_signature : option pystr
}.

Record JSONResponse : Type := mkJSONResponse {
  content : ProcessingResult;
  status_code : Z
}.

(** [hmac.compare_digest(a, b)] on two [str]: only ASCII strings are
    accepted. *)
Definition compare_digest (a b : pystr) : result bool :=
  if forallb is_ascii a && forallb is_ascii b then Ok (pystr_eqb a b)
  else Raise (mkExn TypeError (u "comparing strings with non-ASCII characters is not supported")).

(** [s.encode('utf-8')] *)
Definition encode_utf8 (s : pystr) : result bytes :=
  match utf8_encode s with
  | Some b => Ok b
  | None => raise_class UnicodeEncodeError
  end.

Section WithConfig.
Context `{Builtins} (config : Config) (env : Env).

Definition verify_signature (request_body : bytes) (signature api_key : pystr) : M bool :=
  let* key := lift (encode_utf8 api_key) in
  let expected_signature := hex_encode (hmac_sha256 key request_body) in
  let* is_valid := lift (compare_digest signature expected_signature) in
  run (if is_valid then ret tt
       else log_error (u "❌ Подпись невалидна! Получена: " ++ firstn 16 signature
                         ++ u "..., Ожидалась: " ++ firstn 16 expected_signature ++ u "...")) in
  ret is_valid.

(** [currency.upper()]: only a [str] has the method. *)
Definition py_upper (currency : pyval) : result pystr :=
  match currency with
  | PStr s => Ok (str_upper s)
  | _ => raise_class AttributeError
  end.

Definition convert_to_game_currency (amount currency : pyval) : M Z :=
  let* currency_upper := lift (py_upper currency) in
  let rate := default (NInt 0) (currency_rates config !! currency_upper) in
  if num_is_zero rate then
    run log_error (u "❌ Неизвестная валюта: " ++ py_str currency
                     ++ u ". Используется rate=0") in
    ret 0
  else
    let* product := lift (py_mul amount rate) in
    let* game_currency := lift (py_int product) in
    let* real_amount := lift (py_truediv_100 amount) in
    let* formatted := lift (int_str game_currency) in
    ret game_currency.

Definition extract_player_name (message : pyval) : result pystr :=
  if truthy message then
    match message with
    | PStr s =>
      match split (strip s) with
      | first :: _ => Ok first
      | [] => raise_class IndexError
      end
    | _ => raise_class AttributeError
    end
  else Ok [].

(** The [try]/[except Exception] around [save_tribute_webhook], shared by
    both processing functions. *)
Definition save_best_effort (r : WebhookRecord) : M unit :=
  try_except (save_tribute_webhook env r)
    [ (any_exception, fun e =>
         log_error (u "❌ Ошибка сохранения в БД Tribute: " ++ exn_str e)) ].

(** [process_new_donation] up to the result dictionary (source lines
    132-190), before the result is stored.  The amount that
    [convert_to_game_currency] returns has been formatted there (line 93),
    so [str(game_currency)] in the two [logger.info] lines cannot fail. *)
Definition donation_result (payload : pyval) : M ProcessingResult :=
  let* donation_id := lift (py_get payload (u "donation_request_id") PNone) in
  let* message := lift (py_get payload (u "message") (PStr [])) in
  let* amount := lift (py_get payload (u "amount") (PInt 0)) in
  let* currency := lift (py_get payload (u "currency") (PStr [])) in
  let* user_id := lift (py_get payload (u "user_id") PNone) in
  let* telegram_user_id := lift (py_get payload (u "telegram_user_id") PNone) in
  let* player_name := lift (extract_player_name message) in
  if negb (truthy (PStr player_name)) then
    run log_error (u "❌ Не удалось извлечь имя игрока из сообщения") in
    ret (DonationResult Error (u "Не указано имя игрока в сообщении") None 0)
  else
    let* game_currency := convert_to_game_currency amount currency in
    run log_info (u "🎮 Начисление " ++ str_of_int game_currency
                    ++ u " Рин игроку " ++ player_name) in
    try_except
      (let* success :=
         RconManager.add_currency_to_player (rcon_manager config) env
           player_name game_currency in
       if success then
         run log_info (u "✅ Успешно начислено " ++ str_of_int game_currency
                         ++ u " Рин игроку " ++ player_name) in
         ret (DonationResult Success (u "Валюта успешно начислена через RCON")
                (Some player_name) game_currency)
       else
         run log_error (u "❌ Ошибка начисления валюты игроку " ++ player_name) in
         ret (DonationResult Error (u "Ошибка выполнения RCON команды")
                (Some player_name) game_currency))
      [ (any_exception, fun e =>
           run log_error (u "❌ Исключение при начислении валюты: " ++ exn_str e) in
           ret (DonationResult Error (u "Исключение: " ++ exn_str e)
                  (Some player_name) game_currency)) ].

(** The arguments of the [save_tribute_webhook] call of
    [process_new_donation] (source lines 194-201). *)
Definition donation_record (payload : pyval) (result : ProcessingResult) : WebhookRecord :=
  {| rec_webhook_type := PStr (u "new_donation");
     rec_payload := payload;
     rec_status := result_status result;
     rec_player_name := result_player_name result;
     rec_game_currency := result_game_currency result;
     rec_error_message :=
       match result_status result with
       | Error => Some (result_reason result)
       | _ => None
       end |}.

Definition process_new_donation (payload : pyval) : M ProcessingResult :=
  let* result := donation_result payload in
  run save_best_effort (donation_record payload result) in
  ret result.

Definition process_other_webhook (webhook_type payload : pyval) : M ProcessingResult :=
  run save_best_effort
        {| rec_webhook_type := webhook_type;
           rec_payload := payload;
           rec_status := Received;
           rec_player_name := None;
           rec_game_currency := 0;
           rec_error_message := None |} in
  ret (OtherResult Received (u "Webhook " ++ py_str webhook_type ++ u " получен и сохранен")).

Definition handle_webhook (request : Request) : M JSONResponse :=
  let signature := default [] (trbt_signature request) in
  let* valid := verify_signature (body request) signature (api_key config) in
  if negb valid then
    run log_error (u "🚫 WEBHOOK ОТКЛОНЕН: Неверная подпись") in
    raise (mkExn (HTTPException 401) (u "Invalid webhook signature"))
  else
    let* data :=
      try_except (lift (json_loads (body request)))
        [ (has_class JSONDecodeError, fun e =>
             run log_error (u "❌ Ошибка парсинга JSON: " ++ exn_str e) in
             raise (mkExn (HTTPException 400) (u "Invalid JSON"))) ] in
    let* webhook_type := lift (py_get data (u "name") (PStr [])) in
    let* payload := lift (py_get data (u "payload") (PDict ∅)) in
    let* result :=
      if py_eq_str webhook_type (u "new_donation") then process_new_donation payload
      else process_other_webhook webhook_type payload in
    ret (mkJSONResponse result 200).

End WithConfig.

End Main.

(** ** logger.py *)

Module Logger.

(** A log file is the sequence of lines appended to it; an entry
    [(timestamp, message)] is the line [[timestamp] message] that
    [_write_to_file] writes.  [clock] counts the calls of [datetime.now()]
    so far; what the n-th call formats to is given by [strftime]. *)
Record t : Type := mk {
  debug_mode : bool;
  stdout : list pystr;
  info_log : list (pystr * pystr);
  error_log : list (pystr * pystr);
  debug_log : list (pystr * pystr);
  clock : nat
}.

Inductive file : Type := InfoLog | ErrorLog | DebugLog.

(** The text of an entry in the file. *)
Definition line_of (entry : pystr * pystr) : pystr :=
  u "[" ++ fst entry ++ u "] " ++ snd entry ++ [10%N].

Section WithClock.
Variable strftime : nat -> pystr.

Definition _write_to_file (filepath : file) (message : pystr) (self : t) : t :=
  let timestamp := strftime (clock self) in
  let entry := (timestamp, message) in
  match filepath with
  | InfoLog =>
    mk (debug_mode self) (stdout self) (info_log self ++ [entry]) (error_log self)
       (debug_log self) (S (clock self))
  | ErrorLog =>
    mk (debug_mode self) (stdout self) (info_log self) (error_log self ++ [entry])
       (debug_log self) (S (clock self))
  | DebugLog =>
    mk (debug_mode self) (stdout self) (info_log self) (error_log self)
       (debug_log self ++ [entry]) (S (clock self))
  end.

Definition _format_message (level message : pystr) (self : t) : pystr * t :=
  let timestamp := strftime (clock self) in
  (u "[" ++ timestamp ++ u "] [" ++ level ++ u "] " ++ message,
   mk (debug_mode self) (stdout self) (info_log self) (error_log self) (debug_log self)
      (S (clock self))).

(** [print(formatted)] *)
Definition print (formatted : pystr) (self : t) : t :=
  mk (debug_mode self) (stdout self ++ [formatted]) (info_log self) (error_log self)
     (debug_log self) (clock self).

Definition debug (message : pystr) (self : t) : t :=
  if debug_mode self then
    let '(formatted, self) := _format_message (u "DEBUG") message self in
    let self := print formatted self in
    _write_to_file DebugLog message self
  else self.

Definition info (message : pystr) (self : t) : t :=
  let '(formatted, self) := _format_message (u "INFO") message self in
  let self := print formatted self in
  _write_to_file InfoLog message self.

Definition error (message : pystr) (self : t) : t :=
  let '(formatted, self) := _format_message (u "ERROR") message self in
  let self := print formatted self in
  let self := _write_to_file ErrorLog message self in
  _write_to_file InfoLog (u "ERROR: " ++ message) self.

Definition warning (message : pystr) (self : t) : t :=
  let '(formatted, self) := _format_message (u "WARNING") message self in
  let self := print formatted self in
  _write_to_file InfoLog (u "WARNING: " ++ message) self.

(** A call of one of the four public methods, and a run of calls. *)
Inductive call : Type :=
  | Debug (message : pystr)
  | Info (message : pystr)
  | Error (message : pystr)
  | Warning (message : pystr).

Definition perform (c : call) (self : t) : t :=
  match c with
  | Debug m => debug m self
  | Info m => info m self
  | Error m => error m self
  | Warning m => warning m self
  end.

Definition perform_all (calls : list call) (self : t) : t :=
  fold_left (fun st c => perform c st) calls self.

End WithClock.

End Logger.

(** ** config_loader.py *)

Module ConfigLoader.

(** The exceptions of start-up.  [IntError] carries what [int(env_value)]
    raised. *)
Inductive error : Type :=
  | FileNotFoundError (msg : pystr)
  | ValueError (msg : pystr)
  | KeyError (key : pystr)
  | TypeError
  | AttributeError
  | IntError (e : exn).

Inductive outcome (A : Type) : Type :=
  | Returns (a : A)
  | Raises (e : error).
Arguments Returns {A} a.
Arguments Raises {A} e.

Definition and_then {A B} (m : outcome A) (k : A -> outcome B) : outcome B :=
  match m with
  | Returns a => k a
  | Raises e => Raises e
  end.

Notation "'let?' x ':=' m 'in' k" := (and_then m (fun x => k))
  (at level 10, x pattern, m at level 100, k at level 200).

(** [key in v]: a key of a dict, an element of a list, a substring of a
    string; no other value is a container. *)
Definition py_in (key : pystr) (v : pyval) : outcome bool :=
  match v with
  | PDict d => Returns (match d !! key with Some _ => true | None => false end)
  | PList l => Returns (existsb (fun x => py_eq_str x key) l)
  | PStr s => Returns (contains key s)
  | _ => Raises TypeError
  end.

(** [v[key]] for a string key *)
Definition py_getitem (v : pyval) (key : pystr) : outcome pyval :=
  match v with
  | PDict d =>
    match d !! key with
    | Some x => Returns x
    | None => Raises (KeyError key)
    end
  | _ => Raises TypeError
  end.

(** [v[key] = x] for a string key *)
Definition py_setitem (v : pyval) (key : pystr) (x : pyval) : outcome pyval :=
  match v with
  | PDict d => Returns (PDict (<[key := x]> d))
  | _ => Raises TypeError
  end.

(** [v in (s1, ..., None)]: the tuple holds strings ([Some s]) and [None]. *)
Definition py_in_tuple (v : pyval) (tuple : list (option pystr)) : bool :=
  existsb (fun member =>
             match member, v with
             | Some s, PStr x => pystr_eqb x s
             | None, PNone => true
             | _, _ => false
             end) tuple.

(** The environment variables and where each goes in the configuration. *)
Definition env_mappings : list (pystr * (pystr * pystr)) :=
  [ (u "SERVER_HOST", (u "server", u "host"));
    (u "SERVER_PORT", (u "server", u "port"));
    (u "SERVER_DEBUG", (u "server", u "debug"));
    (u "TRIBUTE_API_KEY", (u "tribute", u "api_key"));
    (u "RCON_HOST", (u "minecraft_rcon", u "host"));
    (u "RCON_PORT", (u "minecraft_rcon", u "port"));
    (u "RCON_PASSWORD", (u "minecraft_rcon", u "password"));
    (u "RCON_COMMAND", (u "minecraft_rcon", u "command")) ].

Section WithBuiltins.
Context `{Builtins}.

(** The value an environment string is stored as, by the last key. *)
Definition env_value_for (last_key env_value : pystr) : outcome pyval :=
  if pystr_eqb last_key (u "port") then
    match int_of_str env_value with
    | Ok n => Returns (PInt n)
    | Raise e => Raises (IntError e)
    end
  else if pystr_eqb last_key (u "debug") then
    Returns (PBool (existsb (pystr_eqb (str_lower env_value))
                      [u "true"; u "1"; u "yes"; u "on"]))
  else Returns (PStr env_value).

(** The body of the loop of [_apply_env_variables] for one mapping. *)
Definition apply_env_variable (env : gmap pystr pystr) (config : pyval)
    (mapping : pystr * (pystr * pystr)) : outcome pyval :=
  let '(env_var, (section, last_key)) := mapping in
  match env !! env_var with
  | None => Returns config
  | Some env_value =>
    let? present := py_in section config in
    let? config := (if present then Returns config
                    else py_setitem config section (PDict ∅)) in
    let? current := py_getitem config section in
    let? value := env_value_for last_key env_value in
    let? current := py_setitem current last_key value in
    py_setitem config section current
  end.

Fixpoint apply_env_variables_from (mappings : list (pystr * (pystr * pystr)))
    (env : gmap pystr pystr) (config : pyval) : outcome pyval :=
  match mappings with
  | [] => Returns config
  | mapping :: rest =>
    let? config := apply_env_variable env config mapping in
    apply_env_variables_from rest env config
  end.

Definition _apply_env_variables (env : gmap pystr pystr) (config : pyval) : outcome pyval :=
  apply_env_variables_from env_mappings env config.

(** [for field in fields: if field not in v: raise ValueError(prefix + field)] *)
Fixpoint require_fields (fields : list pystr) (v : pyval) (prefix : pystr) : outcome unit :=
  match fields with
  | [] => Returns tt
  | field :: rest =>
    let? present := py_in field v in
    if present then require_fields rest v prefix
    else Raises (ValueError (prefix ++ field))
  end.

(** [not os.getenv(name)] *)
Definition env_unset (env : gmap pystr pystr) (name : pystr) : bool :=
  match env !! name with
  | Some (_ :: _) => false
  | _ => true
  end.

(** [load_config(config_path)]: [document] is what [yaml.safe_load] reads
    from the file, [None] when the file does not exist.  The document is a
    tree (no YAML alias makes two sections one object) and its mapping
    keys are strings. *)
Definition load_config (config_path : pystr) (document : option pyval)
    (env : gmap pystr pystr) : outcome pyval :=
  match document with
  | None => Raises (FileNotFoundError (u "Конфигурационный файл не найден: " ++ config_path))
  | Some config =>
    let? config := _apply_env_variables env config in
    let? _ := require_fields
                [u "server"; u "tribute"; u "currency_rates"; u "tribute_database";
                 u "minecraft_rcon"]
                config (u "Отсутствует обязательное поле в конфигурации: ") in
    let? tribute := py_getitem config (u "tribute") in
    let? api_key := py_getitem tribute (u "api_key") in
    if py_in_tuple api_key [Some (u "YOUR_API_KEY_HERE"); Some []; None]
       && env_unset env (u "TRIBUTE_API_KEY")
    then Raises (ValueError
           (u "Необходимо указать API ключ от Tribute в config.yaml или TRIBUTE_API_KEY!"))
    else
    let? rcon_config := py_getitem config (u "minecraft_rcon") in
    let? _ := require_fields [u "host"; u "port"; u "password"; u "command"]
                rcon_config (u "Отсутствует обязательное поле в minecraft_rcon: ") in
    let? command := py_getitem rcon_config (u "command") in
    let? has_player := py_in (u "%player_name%") command in
    let? has_amount := (if has_player then py_in (u "%amount%") command
                        else Returns false) in
    if negb (has_player && has_amount)
    then Raises (ValueError
           (u "Команда RCON должна содержать плейсхолдеры %player_name% и %amount%"))
    else
    let? rcon_password := py_getitem rcon_config (u "password") in
    if py_in_tuple rcon_password
         [Some (u "your_rcon_password"); Some (u "YOUR_RCON_PASSWORD"); Some []; None]
       && env_unset env (u "RCON_PASSWORD")
    then Raises (ValueError
           (u "Необходимо указать реальный RCON пароль в config.yaml или RCON_PASSWORD!"))
    else Returns config
  end.

End WithBuiltins.




End ConfigLoader.

(** ** database.py: the constructor *)

Module Database.
Import ConfigLoader.

(** What an initialiser does once it has read its settings: creating the
    directory of the database file, connecting and creating the
    [webhooks] table.  Each of these completes or raises. *)
Inductive backend : Type :=
  | TributeSqlite (db_path : pyval)
  | TributeMysql (mysql_config : pyval)
  | TributeMongodb (mongo_config : pyval)
  | MinecraftSqlite (db_path : pyval).

(** The two fields that [save_tribute_webhook] and
    [add_currency_to_player] dispatch on. *)
Record t : Type := mk {
  tribute_db_type : pystr;
  minecraft_db_type : pystr
}.

Section WithBackends.
Context `{Builtins} (connect : backend -> outcome unit).

Definition _init_tribute_sqlite (config : pyval) : outcome pystr :=
  let? database := py_getitem config (u "tribute_database") in
  let? sqlite := py_getitem database (u "sqlite") in
  let? db_path := py_getitem sqlite (u "path") in
  let? _ := connect (TributeSqlite db_path) in
  Returns (u "sqlite").

Definition _init_tribute_mysql (config : pyval) : outcome pystr :=
  let? database := py_getitem config (u "tribute_database") in
  let? mysql_config := py_getitem database (u "mysql") in
  let? _ := connect (TributeMysql mysql_config) in
  Returns (u "mysql").

Definition _init_tribute_mongodb (config : pyval) : outcome pystr :=
  let? database := py_getitem config (u "tribute_database") in
  let? mongo_config := py_getitem database (u "mongodb") in
  let? _ := connect (TributeMongodb mongo_config) in
  Returns (u "mongodb").

(** [_init_tribute_db]: the value of [self.tribute_db_type] afterwards. *)
Definition _init_tribute_db (config : pyval) : outcome pystr :=
  let? database := py_getitem config (u "tribute_database") in
  let? db_type := py_getitem database (u "type") in
  if py_eq_str db_type (u "sqlite") then _init_tribute_sqlite config
  else if py_eq_str db_type (u "mysql") then _init_tribute_mysql config
  else if py_eq_str db_type (u "mongodb") then _init_tribute_mongodb config
  else Raises (ValueError (u "Неподдерживаемый тип БД Tribute: " ++ py_str db_type)).

Definition _init_minecraft_sqlite (config : pyval) : outcome pystr :=
  let? database := py_getitem config (u "minecraft_database") in
  let? sqlite := py_getitem database (u "sqlite") in
  let? db_path := py_getitem sqlite (u "path") in
  let? _ := connect (MinecraftSqlite db_path) in
  Returns (u "sqlite").

Definition _init_minecraft_mysql (config : pyval) : outcome pystr :=
  let? database := py_getitem config (u "minecraft_database") in
  let? mysql_config := py_getitem database (u "mysql") in
  Returns (u "mysql").

(** [_init_minecraft_db]: the value of [self.minecraft_db_type]
    afterwards. *)
Definition _init_minecraft_db (config : pyval) : outcome pystr :=
  let? database := py_getitem config (u "minecraft_database") in
  let? db_type := py_getitem database (u "type") in
  if py_eq_str db_type (u "sqlite") then _init_minecraft_sqlite config
  else if py_eq_str db_type (u "mysql") then _init_minecraft_mysql config
  else Raises (ValueError (u "Неподдерживаемый тип БД Minecraft: " ++ py_str db_type)).

(** [DatabaseManager.__init__] *)
Definition __init__ (config : pyval) : outcome t :=
  let? tribute_db_type := _init_tribute_db config in
  let? minecraft_db_type := _init_minecraft_db config in
  Returns (mk tribute_db_type minecraft_db_type).

End WithBackends.

End Database.

(** ** Specification vocabulary *)

(** [p] occurs in [s] as a contiguous substring. *)
Definition substring_of (p s : pystr) : Prop := exists a b, s = a ++ p ++ b.

(** A string with a character that is not whitespace. *)
Definition has_token (s : pystr) : Prop := exists c, In c s /\ is_space c = false.



(** Text without a lone surrogate: what can be written as UTF-8. *)
Definition encodable (s : pystr) : bool :=
  match utf8_encode s with
  | Some _ => true
  | None => false
  end.

(** A finite float. *)
Definition float_is_finite (x : pyfloat) : bool :=
  match x with
  | S754_zero _ | S754_finite _ _ _ => true
  | _ => false
  end.


(** The command rendered for a player and an amount. *)
Definition command_for (self : RconManager.t) (player : pystr) (amount : Z) : pystr :=
  replace (u "%amount%") (str_of_int amount)
    (replace (u "%player_name%") player (RconManager.command_template self)).

(** A request signed with the configured key. *)
Definition validly_signed `{Builtins} (api_key : pystr) (request : Main.Request) : Prop :=
  exists key, utf8_encode api_key = Some key /\
    Main.trbt_signature request
    = Some (hex_encode (hmac_sha256 key (Main.body request))).

(** The first word of a string: its characters up to the first
    whitespace. *)
Fixpoint word_prefix (s : pystr) : pystr :=
  match s with
  | c :: rest => if is_space c then [] else c :: word_prefix rest
  | [] => []
  end.

(** What one request may leave behind: more lines in the error log, at
    most one more RCON session and at most one more stored row. *)
Definition extends (w w' : World) : Prop :=
  (exists lines, error_log w' = error_log w ++ lines) /\
  (rcon_sessions w' = rcon_sessions w \/
   exists command, rcon_sessions w' = rcon_sessions w ++ [command]) /\
  (webhooks w' = webhooks w \/ exists row, webhooks w' = webhooks w ++ [row]).

(** Only the error log differs. *)
Definition quiet (w w' : World) : Prop :=
  (exists lines, error_log w' = error_log w ++ lines) /\
  rcon_sessions w' = rcon_sessions w /\ webhooks w' = webhooks w.

(** The percent sign, which opens and closes a placeholder of the command
    template, and the brace that opens a placeholder of a pattern. *)
Definition percent : N := 37.
Definition open_brace : N := 123.

(** A string of whitespace only. *)
Definition blank (s : pystr) : Prop := Forall (fun c => is_space c = true) s.

(** The rate a currency code is converted at: 0 for a code that is not in
    the table. *)
Definition rate_of `{Builtins} (config : Main.Config) (currency : pystr) : pynum :=
  default (NInt 0) (Main.currency_rates config !! str_upper currency).

(** [config[section][key]], when both lookups succeed on dicts. *)
Definition entry (config : pyval) (section key : pystr) : option pyval :=
  match config with
  | PDict d =>
    match d !! section with
    | Some (PDict c) => c !! key
    | _ => None
    end
  | _ => None
  end.

(** The messages a logger call appends to [info.log], to [error.log] and
    to [debug.log]. *)
Definition info_lines (c : Logger.call) : list pystr :=
  match c with
  | Logger.Debug _ => []
  | Logger.Info m => [m]
  | Logger.Error m => [u "ERROR: " ++ m]
  | Logger.Warning m => [u "WARNING: " ++ m]
  end.

Definition error_lines (c : Logger.call) : list pystr :=
  match c with
  | Logger.Error m => [m]
  | _ => []
  end.

Definition debug_lines (c : Logger.call) : list pystr :=
  match c with
  | Logger.Debug m => [m]
  | _ => []
  end.

Definition is_debug (c : Logger.call) : bool :=
  match c with
  | Logger.Debug _ => true
  | _ => false
  end.

(** The manager with other pattern lists. *)
Definition with_patterns (self : RconManager.t) (success error : list pystr) : RconManager.t :=
  RconManager.mk (RconManager.host self) (RconManager.port self) (RconManager.password self)
    (RconManager.command_template self) success error.

(** ** A test environment

    Library behaviour at the inputs the examples use: the case conversions
    on ASCII, HMAC-SHA256 test vectors under the key [secret], and the
    values [json.loads] gives for three request bodies. *)

Module TestEnv.

(** JSON text, written with ['] for the double quote. *)
Definition json_text (lit : string) : bytes :=
  map (fun b => if Byte.eqb b Byte.x27 then Byte.x22 else b) (list_byte_of_string lit).

Definition hex_value (c : N) : N :=
  if (c <? 58)%N then (c - 48)%N else (c - 87)%N.

Fixpoint unhex_from (cs : list N) : bytes :=
  match cs with
  | hi :: lo :: rest => byte_of_N (16 * hex_value hi + hex_value lo) :: unhex_from rest
  | _ => []
  end.

Definition unhex (lit : string) : bytes := unhex_from (u lit).

Definition bytes_eqb (a b : bytes) : bool :=
  bool_decide (map Byte.to_N a = map Byte.to_N b).

Definition body_array : bytes := json_text "[1,2]".

Definition body_rub : bytes :=
  json_text
    "{'name':'new_donation','payload':{'message':'Steve','amount':10000,'currency':'RUB'}}".

Definition body_zzz : bytes :=
  json_text
    "{'name':'new_donation','payload':{'message':'Steve','amount':10000,'currency':'ZZZ'}}".

Definition hmac_vectors (key msg : bytes) : bytes :=
  if negb (bytes_eqb key (list_byte_of_string "secret")) then repeat Byte.x00 32
  else if bytes_eqb msg body_array then
    unhex "6a01ffae8d99a7dda4eeef396c0fe2c4649bfc5e766e67948640cf326167ab90"
  else if bytes_eqb msg body_rub then
    unhex "3a800720975ba793945671d9ac1c0faff03998d410900853bf720e6691f47b56"
  else if bytes_eqb msg body_zzz then
    unhex "e0f9b48a648f750925b623002f46a321031c86710b3fabf0cd985b5c93cc9f6f"
  else repeat Byte.x00 32.

Definition donation (message : pystr) (amount : Z) (currency : pystr) : pyval :=
  PDict (list_to_map
    [ (u "name", PStr (u "new_donation"));
      (u "payload", PDict (list_to_map
         [ (u "message", PStr message);
           (u "amount", PInt amount);
           (u "currency", PStr currency) ])) ]).

Definition loads_vectors (b : bytes) : result pyval :=
  if bytes_eqb b body_array then Ok (PList [PInt 1; PInt 2])
  else if bytes_eqb b body_rub then Ok (donation (u "Steve") 10000 (u "RUB"))
  else if bytes_eqb b body_zzz then Ok (donation (u "Steve") 10000 (u "ZZZ"))
  else Raise (mkExn JSONDecodeError (u "Expecting value")).

Definition builtins : Builtins :=
  {| str_lower := map ascii_lower;
     str_upper := map ascii_upper;
     str_lower_ascii := fun s _ => eq_refl;
     str_upper_ascii := fun s _ => eq_refl;
     hmac_sha256 := hmac_vectors;
     json_loads := loads_vectors;
     py_repr := fun _ => u "?";
     int_of_str := fun _ => raise_class ValueError |}.

(** The floats nearest to 0.01 and to 0.7 (0x1.47ae147ae147bp-7 and
    0x1.6666666666666p-1). *)
Definition float_001 : pyfloat := S754_finite false 5764607523034235 (-59).

Definition manager : RconManager.t :=
  {| RconManager.host := u "localhost";
     RconManager.port := 25575;
     RconManager.password := u "hunter2";
     RconManager.command_template := u "eco give %player_name% %amount%";
     RconManager.success_patterns := [u "success"];
     RconManager.error_patterns := [u "fail"; u "{player} not found"] |}.

(** The manager of the specification's classifier examples: the error
    pattern [fail] and the given success patterns. *)
Definition fail_ok (success : list pystr) : RconManager.t :=
  RconManager.mk (u "localhost") 25575 (u "hunter2") (u "eco give %player_name% %amount%")
    success [u "fail"].

Definition config : Main.Config :=
  {| Main.api_key := u "secret";
     Main.currency_rates := {[ u "RUB" := NFloat float_001 ]};
     Main.rcon_manager := manager |}.


(** A server that answers every command with a coloured success line, and
    one that refuses the connection; storage that works, and storage that
    fails. *)
Definition server_up (command : pystr) : result pystr := Ok (u "§a§lSuccess§r").
Definition server_down (command : pystr) : result pystr :=
  Raise (mkExn ConnectionRefusedError (u "[Errno 111] Connection refused")).
Definition storage_up (r : WebhookRecord) : option exn := None.
Definition storage_down (r : WebhookRecord) : option exn :=
  Some (mkExn OtherException (u "database is locked")).

Definition world0 : World := mkWorld [] [] [].

Definition signed (b : bytes) : Main.Request :=
  Main.mkRequest b (Some (hex_encode (hmac_vectors (list_byte_of_string "secret") b))).

(** A body that is not UTF-8, for which [json.loads] raises
    [UnicodeDecodeError], with its HMAC-SHA256 under the key [secret]. *)
Definition body_binary : bytes := [Byte.xff].

Definition builtins_binary : Builtins :=
  {| str_lower := map ascii_lower;
     str_upper := map ascii_upper;
     str_lower_ascii := fun s _ => eq_refl;
     str_upper_ascii := fun s _ => eq_refl;
     hmac_sha256 := fun key msg =>
       if bytes_eqb key (list_byte_of_string "secret") && bytes_eqb msg body_binary
       then unhex "877164fcec3e98076451fb62279a6d04f54fb286cd61f72d7ffc3bb000f5badf"
       else hmac_vectors key msg;
     json_loads := fun b =>
       if bytes_eqb b body_binary
       then Raise (mkExn UnicodeDecodeError
                     (u "'utf-8' codec can't decode byte 0xff in position 0: invalid start byte"))
       else loads_vectors b;
     py_repr := fun _ => u "?";
     int_of_str := fun _ => raise_class ValueError |}.

(** A [config.yaml] with the placeholder API key, and an environment that
    supplies the key. *)
Definition document : pyval :=
  PDict (list_to_map
    [ (u "server", PDict (list_to_map
         [ (u "host", PStr (u "0.0.0.0")); (u "port", PInt 8000);
           (u "debug", PBool false) ]));
      (u "tribute", PDict (list_to_map [ (u "api_key", PStr (u "YOUR_API_KEY_HERE")) ]));
      (u "currency_rates", PDict (list_to_map [ (u "RUB", PFloat float_001) ]));
      (u "tribute_database", PDict (list_to_map
         [ (u "type", PStr (u "sqlite"));
           (u "sqlite", PDict (list_to_map [ (u "path", PStr (u "./data/tribute.db")) ])) ]));
      (u "minecraft_rcon", PDict (list_to_map
         [ (u "host", PStr (u "localhost")); (u "port", PInt 25575);
           (u "password", PStr (u "hunter2"));
           (u "command", PStr (u "eco give %player_name% %amount%")) ])) ]).

Definition environment : gmap pystr pystr :=
  {[ u "TRIBUTE_API_KEY" := u "secret"; u "SERVER_DEBUG" := u "Yes";
     u "HOME" := u "/root" ]}.

(** What [load_config] returns for them. *)
Definition loaded : pyval :=
  PDict (list_to_map
    [ (u "server", PDict (list_to_map
         [ (u "host", PStr (u "0.0.0.0")); (u "port", PInt 8000);
           (u "debug", PBool true) ]));
      (u "tribute", PDict (list_to_map [ (u "api_key", PStr (u "secret")) ]));
      (u "currency_rates", PDict (list_to_map [ (u "RUB", PFloat float_001) ]));
      (u "tribute_database", PDict (list_to_map
         [ (u "type", PStr (u "sqlite"));
           (u "sqlite", PDict (list_to_map [ (u "path", PStr (u "./data/tribute.db")) ])) ]));
      (u "minecraft_rcon", PDict (list_to_map
         [ (u "host", PStr (u "localhost")); (u "port", PInt 25575);
           (u "password", PStr (u "hunter2"));
           (u "command", PStr (u "eco give %player_name% %amount%")) ])) ]).

(** The same with a [minecraft_database] section, and database back ends
    that complete. *)
Definition loaded_with_minecraft : pyval :=
  match loaded with
  | PDict d =>
    PDict (<[u "minecraft_database" :=
               PDict (list_to_map
                 [ (u "type", PStr (u "mysql"));
                   (u "mysql", PDict (list_to_map [ (u "host", PStr (u "localhost")) ])) ])]> d)
  | other => other
  end.

Definition backends_up (b : Database.backend) : ConfigLoader.outcome unit :=
  ConfigLoader.Returns tt.

(** A clock that formats the n-th reading as the number n, and a logger
    that has written nothing yet. *)
Definition ticks (n : nat) : pystr := str_of_int (Z.of_nat n).

Definition logger0 (debug_mode : bool) : Logger.t := Logger.mk debug_mode [] [] [] [] 0.

End TestEnv.

(** * Properties *)

(** ** Strings *)

Example u_section_sign : u "§a" = [167; 97]%N.
Proof. reflexivity. Qed.

Example whitespace_size : length whitespace = 29%nat.
Proof. reflexivity. Qed.

Example str_of_int_neg : str_of_int (-120) = u "-120".
Proof. reflexivity. Qed.

Example replace_twice : replace (u "ab") (u "X") (u "abcabab") = u "XcXX".
Proof. reflexivity. Qed.

Example split_example : split (u "  Steve   hello ") = [u "Steve"; u "hello"].
Proof. reflexivity. Qed.

Lemma starts_with_spec (p s : pystr) :
  starts_with p s = true <-> exists b, s = p ++ b.
Proof.
  revert s. induction p as [|a p IH]; intros s; simpl.
  - split; [intros _; now exists s | reflexivity].
  - destruct s as [|c s].
    + split; [discriminate | intros [b Hb]; discriminate].
    + rewrite andb_true_iff, N.eqb_eq, IH. split.
      * intros [-> [b ->]]. now exists b.
      * intros [b Hb]. injection Hb as -> ->. split; [reflexivity | now exists b].
Qed.

Lemma contains_spec (p s : pystr) :
  contains p s = true <-> substring_of p s.
Proof.
  unfold substring_of. induction s as [|c s IH].
  - simpl. rewrite orb_false_r, starts_with_spec. split.
    + intros [b Hb]. now exists [], b.
    + intros (a & b & Hab). destruct a; [now exists b | discriminate].
  - cbn [contains]. rewrite orb_true_iff, IH, starts_with_spec. split.
    + intros [[b Hb] | (a & b & Hab)].
      * now exists [], b.
      * exists (c :: a), b. now rewrite Hab.
    + intros (a & b & Hab). destruct a as [|c' a].
      * left. now exists b.
      * right. injection Hab as _ ->. now exists a, b.
Qed.

(** ** The response classifier *)

Section ClassifierFacts.
Context `{Builtins}.
Import RconManager.

(** The loop over a pattern list returns exactly when some rendered
    pattern is a substring of the lowered response. *)
Lemma pattern_loop_spec (patterns : list pystr) player amount response_lower :
  pattern_loop patterns player amount response_lower = true <->
  Exists (fun p => substring_of (str_lower (_replace_placeholders p player amount))
                     response_lower) patterns.
Proof.
  induction patterns as [|p rest IH]; simpl.
  - split; [discriminate | intros Hex; inversion Hex].
  - destruct (contains _ response_lower) eqn:Hc.
    + split; [intros _ | reflexivity]. constructor. now apply contains_spec.
    + rewrite IH. split; [now constructor 2 |].
      intros Hex. inversion Hex as [? ? Hhere | ? ? Hlater]; subst; [| exact Hlater].
      apply contains_spec in Hhere. congruence.
Qed.


End ClassifierFacts.

(** ** Colour stripping *)

Section ColourFacts.
Import RconManager.













Lemma re_sub_empty_cons (m : pystr -> option nat) (skip : nat) (c : N) (rest : pystr) :
  re_sub_empty m skip (c :: rest) =
  match skip with
  | S k => re_sub_empty m k rest
  | O =>
    match m (c :: rest) with
    | Some (S n) => re_sub_empty m n rest
    | _ => c :: re_sub_empty m 0 rest
    end
  end.
Proof. reflexivity. Qed.








Example strip_hex_and_codes :
  _strip_minecraft_colors (u "§x§1§2§3§4§5§6hi§X§a§B§c§D§e§Fyo§K!") = u "hiyo!".
Proof. vm_compute. reflexivity. Qed.

(** Dropping a code can bring a section sign and a letter together; the
    result is not scanned again. *)
Example strip_leaves_new_code : _strip_minecraft_colors (u "§§aa") = u "§a".
Proof. vm_compute. reflexivity. Qed.

End ColourFacts.

Section ColourClaim.
Context `{Builtins}.
Import RconManager.




End ColourClaim.

(** ** Player-name extraction *)

Section ExtractionFacts.
Import Main.

Lemma has_token_lstrip (s : pystr) : has_token s -> has_token (lstrip s).
Proof.
  induction s as [|c s IH]; intros (x & Hin & Hx); [destruct Hin |].
  simpl. destruct (is_space c) eqn:Hc.
  - apply IH. destruct Hin as [-> | Hin]; [congruence | now exists x].
  - now exists x.
Qed.





Lemma lstrip_blank (s : pystr) : forallb is_space s = true -> lstrip s = [].
Proof.
  induction s as [|c s IH]; [reflexivity |]. simpl.
  intros [Hc Hs]%andb_prop. rewrite Hc. now apply IH.
Qed.


(** A message that is not empty and is whitespace only has no first
    token: the index raises. *)
Lemma extract_player_name_blank (s : pystr) :
  s <> [] -> forallb is_space s = true ->
  extract_player_name (PStr s) = raise_class IndexError.
Proof.
  intros Hne Hblank. unfold extract_player_name.
  destruct s as [|c s]; [now destruct Hne |]. cbn [truthy].
  unfold strip. rewrite (lstrip_blank _ Hblank). reflexivity.
Qed.

Example extract_player_name_empty : extract_player_name (PStr (u "")) = Ok (u "").
Proof. reflexivity. Qed.

Example extract_player_name_steve : extract_player_name (PStr (u "Steve hello")) = Ok (u "Steve").
Proof. reflexivity. Qed.

(** C3 at the failing input: the message of three spaces passes the
    emptiness test, strips to the empty string, splits to the empty list,
    and the index [0] raises [IndexError] instead of giving the empty
    string. *)
Theorem extract_player_name_three_spaces :
  extract_player_name (PStr (u "   ")) = Raise (mkExn IndexError []).
Proof. reflexivity. Qed.

End ExtractionFacts.

(** ** Signature verification *)

Section SignatureFacts.
Context `{Builtins}.
Import Main.

Lemma hex_digit_ascii (n : N) : (n < 16)%N -> is_ascii (hex_digit n) = true.
Proof.
  intros Hn. unfold is_ascii, hex_digit.
  destruct (n <? 10)%N; apply N.ltb_lt; lia.
Qed.

Lemma hex_encode_ascii (b : bytes) : forallb is_ascii (hex_encode b) = true.
Proof.
  induction b as [|x b IH]; [reflexivity |].
  cbn [hex_encode flat_map app forallb]. fold (hex_encode b). rewrite IH.
  pose proof (Byte.to_N_bounded x) as Hx.
  rewrite !hex_digit_ascii; [reflexivity | |].
  - apply N.mod_lt. discriminate.
  - apply N.Div0.div_lt_upper_bound. lia.
Qed.

(** The signature a request must carry. *)
Lemma verify_signature_valid (request_body key : bytes) (api_key : pystr) (w : World) :
  utf8_encode api_key = Some key ->
  verify_signature request_body (hex_encode (hmac_sha256 key request_body)) api_key w
  = (Ok true, w).
Proof.
  intros Hkey. unfold verify_signature, encode_utf8, bind, lift, compare_digest.
  rewrite Hkey, hex_encode_ascii. cbn [andb]. unfold pystr_eqb.
  rewrite bool_decide_eq_true_2 by reflexivity. reflexivity.
Qed.


Example verify_signature_empty (request_body : bytes) (w : World) :
  hmac_sha256 (list_byte_of_string "secret") request_body <> [] ->
  fst (verify_signature request_body [] (u "secret") w) = Ok false.
Proof.
  intros Hne. unfold verify_signature, encode_utf8, bind, lift, compare_digest.
  replace (utf8_encode (u "secret")) with (Some (list_byte_of_string "secret"))
    by (vm_compute; reflexivity).
  rewrite hex_encode_ascii. cbn [forallb andb]. unfold pystr_eqb.
  destruct (hmac_sha256 _ request_body) as [|x d]; [now destruct Hne |].
  rewrite bool_decide_eq_false_2 by discriminate. reflexivity.
Qed.

(** C2 at the failing input: for the signature [é] (U+00E9),
    [hmac.compare_digest] raises [TypeError], so [verify_signature] raises
    instead of returning [False], whatever the body and the digest. *)
Theorem verify_signature_non_ascii_raises (request_body : bytes) (w : World) :
  verify_signature request_body [233%N] (u "secret") w
  = (Raise (mkExn TypeError
              (u "comparing strings with non-ASCII characters is not supported")), w).
Proof.
  unfold verify_signature, encode_utf8, bind, lift, compare_digest.
  replace (utf8_encode (u "secret")) with (Some (list_byte_of_string "secret"))
    by (vm_compute; reflexivity).
  reflexivity.
Qed.

End SignatureFacts.

(** ** Numbers and their text *)

Section NumberFacts.


Lemma binary_round_aux_opp (s : bool) (m e : Z) (l : location) :
  binary_round_aux 53 1024 (negb s) m e l = SFopp (binary_round_aux 53 1024 s m e l).
Proof.
  unfold binary_round_aux.
  destruct (shr_fexp 53 1024 m e l) as [mrs' e'].
  destruct (shr_fexp 53 1024 _ e' loc_Exact) as [mrs'' e''].
  destruct (shr_m mrs'') as [|p|p]; [reflexivity | | reflexivity].
  now destruct (e'' <=? 1024 - 53).
Qed.





Lemma float_mul_opp (x y : pyfloat) : float_mul (SFopp x) y = SFopp (float_mul x y).
Proof.
  unfold float_mul.
  destruct x as [sx | sx | | sx mx ex], y as [sy | sy | | sy my ey]; cbn [SFmul SFopp];
    try reflexivity; try (now destruct sx, sy).
  destruct sx, sy; cbn [xorb negb];
    first [exact (binary_round_aux_opp false _ _ _) | exact (binary_round_aux_opp true _ _ _)].
Qed.

Lemma binary_normalize_opp (a : Z) :
  a <> 0 ->
  binary_normalize 53 1024 (- a) 0 false = SFopp (binary_normalize 53 1024 a 0 false).
Proof.
  intros Ha. destruct a as [|p|p]; [contradiction | |].
  - change (- Z.pos p) with (Z.neg p). unfold binary_normalize, binary_round.
    destruct (shl_align _ _ _) as [mz ez]. exact (binary_round_aux_opp false _ _ _).
  - change (- Z.neg p) with (Z.pos p). unfold binary_normalize, binary_round.
    destruct (shl_align _ _ _) as [mz ez]. exact (binary_round_aux_opp true _ _ _).
Qed.

Lemma float_of_int_opp (a : Z) :
  float_of_int (- a) =
  match float_of_int a with
  | Ok x => Ok (if a =? 0 then x else SFopp x)
  | Raise e => Raise e
  end.
Proof.
  destruct (Z.eqb_spec a 0) as [-> | Ha]; [reflexivity |].
  unfold float_of_int. rewrite (binary_normalize_opp a Ha).
  now destruct (binary_normalize 53 1024 a 0 false).
Qed.

Lemma int_of_float_opp (x : pyfloat) :
  int_of_float (SFopp x) =
  match int_of_float x with
  | Ok g => Ok (- g)
  | Raise e => Raise e
  end.
Proof.
  destruct x as [s | s | | s m e]; cbn; try reflexivity.
  destruct s; cbn; now rewrite ?Z.opp_involutive.
Qed.

Lemma int_truediv_100_opp (a : Z) :
  int_truediv_100 (- a) =
  match int_truediv_100 a with
  | Ok x => Ok (if a =? 0 then x else SFopp x)
  | Raise e => Raise e
  end.
Proof.
  destruct a as [|p|p]; [reflexivity | |].
  - change (- Z.pos p) with (Z.neg p). unfold int_truediv_100.
    change (Z.abs (Z.neg p)) with (Z.pos p). change (Z.abs (Z.pos p)) with (Z.pos p).
    change (Z.neg p <? 0) with true. change (Z.pos p <? 0) with false.
    change (Z.pos p =? 0) with false. cbv iota.
    destruct (SFdiv_core_binary 53 1024 (Z.pos p) 0 100 0) as [[q e] l].
    rewrite (binary_round_aux_opp false q e l : binary_round_aux 53 1024 true q e l = _).
    now destruct (binary_round_aux 53 1024 false q e l).
  - change (- Z.neg p) with (Z.pos p). unfold int_truediv_100.
    change (Z.abs (Z.neg p)) with (Z.pos p). change (Z.abs (Z.pos p)) with (Z.pos p).
    change (Z.neg p <? 0) with true. change (Z.pos p <? 0) with false.
    change (Z.neg p =? 0) with false. cbv iota.
    destruct (SFdiv_core_binary 53 1024 (Z.pos p) 0 100 0) as [[q e] l].
    rewrite (binary_round_aux_opp true q e l : binary_round_aux 53 1024 false q e l = _).
    now destruct (binary_round_aux 53 1024 true q e l).
Qed.

Lemma int_str_opp (g : Z) :
  int_str (- g) =
  match int_str g with
  | Ok _ => Ok (str_of_int (- g))
  | Raise e => Raise e
  end.
Proof. unfold int_str. rewrite Z.abs_opp. now destruct (Z.abs g <? _). Qed.

End NumberFacts.

Section FormattingFacts.

Lemma int_str_small (z : Z) :
  Z.abs z < 10 ^ int_max_str_digits -> int_str z = Ok (str_of_int z).
Proof. intros Hz. unfold int_str. apply Z.ltb_lt in Hz. now rewrite Hz. Qed.

Lemma int_str_large (z : Z) :
  10 ^ int_max_str_digits <= Z.abs z -> exists e, int_str z = Raise e.
Proof. intros Hz. unfold int_str. apply Z.ltb_ge in Hz. rewrite Hz. eauto. Qed.

Lemma int_str_ok (z : Z) (text : pystr) : int_str z = Ok text -> text = str_of_int z.
Proof. unfold int_str. destruct (Z.abs z <? _); [now intros [= <-] | discriminate]. Qed.

Lemma encodable_app (a b : pystr) : encodable (a ++ b) = encodable a && encodable b.
Proof.
  unfold encodable. induction a as [|c a IH]; [cbn; now destruct (utf8_encode b) |].
  cbn [app utf8_encode]. destruct (utf8_encode_char c); [| reflexivity].
  destruct (utf8_encode (a ++ b)), (utf8_encode a), (utf8_encode b);
    cbn in *; congruence.
Qed.

Lemma encodable_ascii (s : pystr) : forallb is_ascii s = true -> encodable s = true.
Proof.
  unfold encodable. induction s as [|c s IH]; [reflexivity |].
  cbn [forallb utf8_encode]. intros [Hc Hs]%andb_prop. unfold utf8_encode_char.
  unfold is_ascii in Hc. rewrite Hc. specialize (IH Hs).
  now destruct (utf8_encode s).
Qed.

Lemma string_of_uint_ascii (d : Decimal.uint) :
  forallb is_ascii (u (NilEmpty.string_of_uint d)) = true.
Proof.
  induction d as [|d IH|d IH|d IH|d IH|d IH|d IH|d IH|d IH|d IH|d IH];
    [reflexivity | exact IH ..].
Qed.

Lemma zero_uint_ascii (d : Decimal.uint) :
  forallb is_ascii (u (NilZero.string_of_uint d)) = true.
Proof.
  unfold NilZero.string_of_uint. destruct d; try reflexivity;
    apply (string_of_uint_ascii (_ d)).
Qed.

(** [str(z)] is a sign and decimal digits. *)
Lemma str_of_int_ascii (z : Z) : forallb is_ascii (str_of_int z) = true.
Proof.
  unfold str_of_int. destruct (Z.to_int z) as [d | d]; cbn [NilZero.string_of_int].
  - apply zero_uint_ascii.
  - change (u (String "-" (NilZero.string_of_uint d)))
      with (45%N :: u (NilZero.string_of_uint d)).
    cbn [forallb]. now rewrite zero_uint_ascii.
Qed.

Lemma str_of_int_encodable (z : Z) : encodable (str_of_int z) = true.
Proof. apply encodable_ascii, str_of_int_ascii. Qed.

End FormattingFacts.

(** ** Currency conversion *)

Section ConversionFacts.
Context `{Builtins}.
Import Main.

Lemma convert_unknown (config : Config) (amount : pyval) (currency : pystr) (w : World) :
  num_is_zero (default (NInt 0) (currency_rates config !! str_upper currency)) = true ->
  convert_to_game_currency config amount (PStr currency) w
  = (Ok 0,
     mkWorld (error_log w ++ [u "❌ Неизвестная валюта: " ++ currency
                                ++ u ". Используется rate=0"])
             (rcon_sessions w) (webhooks w)).
Proof.
  intros Hzero. unfold convert_to_game_currency, py_upper, bind, lift.
  rewrite Hzero. reflexivity.
Qed.

(** The conversion of an integer amount at a rate that is not zero, line by
    line: the product, [int], the division by 100, and the formatting of
    the result. *)
Lemma convert_known (config : Config) (a : Z) (currency : pystr) (w : World) :
  num_is_zero (rate_of config currency) = false ->
  convert_to_game_currency config (PInt a) (PStr currency) w =
  (match py_mul (PInt a) (rate_of config currency) with
   | Raise e => Raise e
   | Ok product =>
     match py_int product with
     | Raise e => Raise e
     | Ok g =>
       match int_truediv_100 a with
       | Raise e => Raise e
       | Ok _ =>
         match int_str g with
         | Raise e => Raise e
         | Ok _ => Ok g
         end
       end
     end
   end, w).
Proof.
  intros Hz. unfold convert_to_game_currency, py_upper, bind, lift.
  fold (rate_of config currency). rewrite Hz.
  destruct (py_mul (PInt a) (rate_of config currency)) as [product | e]; [| reflexivity].
  destruct (py_int product) as [g | e]; [| reflexivity].
  cbn [py_truediv_100]. destruct (int_truediv_100 a) as [y | e]; [| reflexivity].
  now destruct (int_str g).
Qed.

(** Whatever the amount and the currency are, the conversion changes the
    error log only, and what it returns can be formatted. *)
Lemma convert_formats (config : Config) (amount currency : pyval) (g : Z) (w w' : World) :
  convert_to_game_currency config amount currency w = (Ok g, w') ->
  int_str g = Ok (str_of_int g).
Proof.
  unfold convert_to_game_currency, bind, lift.
  destruct (py_upper currency) as [code | e]; [| discriminate].
  destruct (num_is_zero _).
  - unfold log_error, ret. intros [= <- _]. reflexivity.
  - destruct (py_mul amount _) as [product | e]; [| discriminate].
    destruct (py_int product) as [g' | e]; [| discriminate].
    destruct (py_truediv_100 amount) as [y | e]; [| discriminate].
    destruct (int_str g') as [text | e] eqn:Hstr; [| discriminate].
    unfold ret. intros [= <- _]. unfold int_str in *.
    now destruct (Z.abs g' <? _).
Qed.

End ConversionFacts.

Section ConversionClaims.
Context `{Builtins}.
Import Main.



End ConversionClaims.





(** ** Command execution *)

Section ExecutionFacts.
Context `{Builtins}.
Import RconManager.

Lemma refused_prefix : u "Не удалось подключиться к RCON (" <> [].
Proof. vm_compute. discriminate. Qed.

Lemma failed_prefix : u "Ошибка выполнения RCON команды: " <> [].
Proof. vm_compute. discriminate. Qed.

Lemma app_not_nil (a b : pystr) : a <> [] -> a ++ b <> [].
Proof. intros Ha Hab. apply app_eq_nil in Hab as [Hnil _]. contradiction. Qed.

(** [execute_command] in closed form: when the amount can be formatted,
    one session and a pair in every case. *)
Lemma execute_command_run (self : t) (env : Env) (player : pystr) (amount : Z) (w : World) :
  execute_command self env player amount w =
  match int_str amount with
  | Raise e => (Raise e, w)
  | Ok _ =>
    let command := command_for self player amount in
    let opened := rcon_sessions w ++ [command] in
    match rcon_server env command with
    | Ok r =>
      (Ok (_check_response self r player amount, r),
       mkWorld (error_log w) opened (webhooks w))
    | Raise e =>
      let error_msg :=
        if has_class ConnectionRefusedError e
        then u "Не удалось подключиться к RCON (" ++ host self ++ u ":"
               ++ str_of_int (port self) ++ u ")"
        else u "Ошибка выполнения RCON команды: " ++ exn_str e in
      (Ok (false, error_msg),
       mkWorld (error_log w ++ [u "❌ " ++ error_msg]) opened (webhooks w))
    end
  end.
Proof.
  unfold execute_command. unfold bind at 1, lift at 1.
  destruct (int_str amount) as [text | e] eqn:Hstr; [| reflexivity].
  apply int_str_ok in Hstr as ->.
  unfold command_for, try_except, bind, rcon_session, ret.
  destruct (rcon_server env _) as [r | e]; [reflexivity |].
  cbn [dispatch]. destruct (has_class ConnectionRefusedError e); reflexivity.
Qed.

Lemma error_msg_not_empty (self : t) (e : exn) :
  (if has_class ConnectionRefusedError e
   then u "Не удалось подключиться к RCON (" ++ host self ++ u ":"
          ++ str_of_int (port self) ++ u ")"
   else u "Ошибка выполнения RCON команды: " ++ exn_str e) <> [].
Proof.
  destruct (has_class _ e); apply app_not_nil; [apply refused_prefix | apply failed_prefix].
Qed.

(** C5, as the code has it.  [str(amount)] is evaluated before the
    [try]: for an amount of more than 4300 digits it raises [ValueError],
    which leaves [execute_command] with no session opened and nothing
    logged.  For any other amount [execute_command] opens exactly one
    session for the rendered command and always returns a pair.  When the
    session yields a response, the pair is the classifier's verdict and
    that response.  When it raises, the pair is [False] with a diagnostic
    message that is not empty: the could-not-connect message with host and
    port for [ConnectionRefusedError], the command-failed message with the
    exception's text for any other exception; the message is logged. *)
Theorem execute_command_never_raises (self : t) (env : Env) (player : pystr) (amount : Z)
    (w : World) :
  let command := command_for self player amount in
  (Z.abs amount < 10 ^ int_max_str_digits ->
   exists ok response w',
     execute_command self env player amount w = (Ok (ok, response), w') /\
     rcon_sessions w' = rcon_sessions w ++ [command] /\
     webhooks w' = webhooks w /\
     (forall r, rcon_server env command = Ok r ->
        ok = _check_response self r player amount /\ response = r /\
        error_log w' = error_log w) /\
     (forall e, rcon_server env command = Raise e ->
        ok = false /\ response <> [] /\
        response =
          (if has_class ConnectionRefusedError e
           then u "Не удалось подключиться к RCON (" ++ host self ++ u ":"
                  ++ str_of_int (port self) ++ u ")"
           else u "Ошибка выполнения RCON команды: " ++ exn_str e) /\
        error_log w' = error_log w ++ [u "❌ " ++ response])) /\
  (10 ^ int_max_str_digits <= Z.abs amount ->
   exists e,
     execute_command self env player amount w = (Raise e, w) /\
     exn_class_of e = ValueError).
Proof.
  intros command. rewrite execute_command_run. split.
  - intros Hsmall. rewrite (int_str_small amount Hsmall). cbv zeta. fold command.
    destruct (rcon_server env command) as [r | e] eqn:Hserver;
      do 3 eexists; (split; [reflexivity |]); cbn [rcon_sessions webhooks error_log].
    + repeat split; try congruence; intros e He; discriminate.
    + split; [reflexivity |]. split; [reflexivity |]. split; [intros r Hr; discriminate |].
      intros e' [= <-]. repeat split. apply error_msg_not_empty.
  - intros Hlarge. unfold int_str. apply Z.ltb_ge in Hlarge. rewrite Hlarge.
    eexists. split; reflexivity.
Qed.

End ExecutionFacts.

(** C5 as stated fails: with the connection refused the response component
    is the could-not-connect message, not the empty string. *)
Lemma execute_command_refused_message :
  fst (RconManager.execute_command (H := TestEnv.builtins) TestEnv.manager
         (mkEnv TestEnv.server_down TestEnv.storage_up) (u "Steve") 100 TestEnv.world0)
  = Ok (false, u "Не удалось подключиться к RCON (localhost:25575)") /\
  u "Не удалось подключиться к RCON (localhost:25575)" <> [].
Proof. split; [vm_compute; reflexivity | vm_compute; discriminate]. Qed.

(** ** Persistence *)

Section PersistenceFacts.
Context `{Builtins}.
Import Main.

(** Storing never raises: the row is appended, or the failure is logged. *)
Lemma save_best_effort_total (env : Env) (r : WebhookRecord) (w : World) :
  save_best_effort env r w =
  (Ok tt,
   match storage env r with
   | None => mkWorld (error_log w) (rcon_sessions w) (webhooks w ++ [r])
   | Some e =>
     mkWorld (error_log w ++ [u "❌ Ошибка сохранения в БД Tribute: " ++ exn_str e])
             (rcon_sessions w) (webhooks w)
   end).
Proof.
  unfold save_best_effort, try_except, save_tribute_webhook.
  destruct (storage env r); reflexivity.
Qed.

(** The result dictionary does not depend on the storage. *)
Lemma donation_result_storage (config : Config) (rcon : pystr -> result pystr)
    (storage1 storage2 : WebhookRecord -> option exn) (payload : pyval) (w : World) :
  donation_result config (mkEnv rcon storage1) payload w
  = donation_result config (mkEnv rcon storage2) payload w.
Proof. reflexivity. Qed.

Lemma process_new_donation_split (config : Config) (env : Env) (payload : pyval) (w : World) :
  process_new_donation config env payload w =
  match donation_result config env payload w with
  | (Ok result, w1) =>
    (Ok result, snd (save_best_effort env (donation_record payload result) w1))
  | (Raise e, w1) => (Raise e, w1)
  end.
Proof.
  unfold process_new_donation, bind.
  destruct (donation_result config env payload w) as [[result | e] w1]; [| reflexivity].
  rewrite save_best_effort_total. reflexivity.
Qed.

(** C7: the result is built before the row is stored, and a failing
    [save_tribute_webhook] does not change it.  With the same RCON server
    and any two storages the two processing functions return the same
    result (or raise the same exception); when storing the row of a
    donation result fails, the exception is logged and that result is
    returned, and likewise for any other webhook. *)
Theorem persistence_failure_keeps_result (config : Config) (rcon : pystr -> result pystr)
    (storage1 storage2 : WebhookRecord -> option exn) (webhook_type payload : pyval)
    (w : World) :
  let env1 := mkEnv rcon storage1 in
  let env2 := mkEnv rcon storage2 in
  let failure_line := fun e : exn => u "❌ Ошибка сохранения в БД Tribute: " ++ exn_str e in
  fst (process_new_donation config env1 payload w)
  = fst (process_new_donation config env2 payload w) /\
  fst (process_other_webhook env1 webhook_type payload w)
  = fst (process_other_webhook env2 webhook_type payload w) /\
  (forall result w1 e,
     donation_result config env1 payload w = (Ok result, w1) ->
     storage1 (donation_record payload result) = Some e ->
     process_new_donation config env1 payload w
     = (Ok result,
        mkWorld (error_log w1 ++ [failure_line e]) (rcon_sessions w1) (webhooks w1))) /\
  (forall result w1,
     donation_result config env1 payload w = (Ok result, w1) ->
     storage1 (donation_record payload result) = None ->
     process_new_donation config env1 payload w
     = (Ok result,
        mkWorld (error_log w1) (rcon_sessions w1)
                (webhooks w1 ++ [donation_record payload result]))) /\
  (forall e,
     storage1 (mkWebhookRecord webhook_type payload Received None 0 None) = Some e ->
     process_other_webhook env1 webhook_type payload w
     = (Ok (OtherResult Received
              (u "Webhook " ++ py_str webhook_type ++ u " получен и сохранен")),
        mkWorld (error_log w ++ [failure_line e]) (rcon_sessions w) (webhooks w))).
Proof.
  intros env1 env2 failure_line. split; [| split; [| split; [| split]]].
  - rewrite !process_new_donation_split.
    unfold env1, env2. rewrite (donation_result_storage config rcon storage1 storage2).
    destruct (donation_result _ _ payload w) as [[result | e] w1]; reflexivity.
  - unfold process_other_webhook, bind. rewrite !save_best_effort_total. reflexivity.
  - intros result w1 e Hresult Hfail.
    rewrite process_new_donation_split, Hresult, save_best_effort_total.
    cbn [snd]. unfold env1. cbn [storage]. rewrite Hfail. reflexivity.
  - intros result w1 Hresult Hstore.
    rewrite process_new_donation_split, Hresult, save_best_effort_total.
    cbn [snd]. unfold env1. cbn [storage]. rewrite Hstore. reflexivity.
  - intros e Hfail. unfold process_other_webhook, bind.
    rewrite save_best_effort_total. unfold env1. cbn [storage]. rewrite Hfail. reflexivity.
Qed.

End PersistenceFacts.

(** ** The webhook dispatcher *)

Section DispatcherFacts.
Context `{Builtins}.
Import Main.

Lemma log_info_ok (msg : pystr) (w : World) :
  encodable msg = true -> log_info msg w = (Ok tt, w).
Proof. unfold log_info, encodable. now destruct (utf8_encode msg). Qed.

Lemma log_info_fails (msg : pystr) (w : World) :
  encodable msg = false -> log_info msg w = (raise_class UnicodeEncodeError, w).
Proof. unfold log_info, encodable. now destruct (utf8_encode msg). Qed.

(** A line that names an amount and a player can be written exactly when
    the player name can. *)
Lemma info_line_encodable (a b player : pystr) (g : Z) :
  encodable a = true -> encodable b = true ->
  encodable (a ++ str_of_int g ++ b ++ player) = encodable player.
Proof. intros Ha Hb. now rewrite !encodable_app, Ha, Hb, str_of_int_encodable. Qed.







Lemma donation_result_dict (config : Config) (env : Env) (d : gmap pystr pyval) (w : World) :
  donation_result config env (PDict d) w =
  (let message := dict_get d (u "message") (PStr []) in
   let amount := dict_get d (u "amount") (PInt 0) in
   let currency := dict_get d (u "currency") (PStr []) in
   match extract_player_name message with
   | Raise e => (Raise e, w)
   | Ok player_name =>
     (if negb (truthy (PStr player_name)) then
        bind (log_error (u "❌ Не удалось извлечь имя игрока из сообщения"))
          (fun _ => ret (DonationResult Error (u "Не указано имя игрока в сообщении") None 0))
      else
        bind (convert_to_game_currency config amount currency) (fun game_currency =>
        bind (log_info (u "🎮 Начисление " ++ str_of_int game_currency
                          ++ u " Рин игроку " ++ player_name)) (fun _ =>
        try_except
          (bind (RconManager.add_currency_to_player (rcon_manager config) env
                   player_name game_currency) (fun success =>
           if success then
             bind (log_info (u "✅ Успешно начислено " ++ str_of_int game_currency
                               ++ u " Рин игроку " ++ player_name)) (fun _ =>
             ret (DonationResult Success (u "Валюта успешно начислена через RCON")
                    (Some player_name) game_currency))
           else
             bind (log_error (u "❌ Ошибка начисления валюты игроку " ++ player_name))
               (fun _ => ret (DonationResult Error (u "Ошибка выполнения RCON команды")
                                (Some player_name) game_currency))))
          [ (any_exception, fun e =>
               bind (log_error (u "❌ Исключение при начислении валюты: " ++ exn_str e))
                 (fun _ => ret (DonationResult Error (u "Исключение: " ++ exn_str e)
                                  (Some player_name) game_currency))) ]))) w
   end).
Proof.
  unfold donation_result, bind, lift, py_get.
  destruct (extract_player_name _); reflexivity.
Qed.





(** After the signature check and the JSON decoding. *)
Lemma handle_webhook_parsed (config : Config) (env : Env) (request : Request)
    (data : pyval) (w : World) :
  validly_signed (api_key config) request ->
  json_loads (body request) = Ok data ->
  handle_webhook config env request w =
  bind (lift (py_get data (u "name") (PStr []))) (fun webhook_type =>
  bind (lift (py_get data (u "payload") (PDict ∅))) (fun payload =>
  bind (if py_eq_str webhook_type (u "new_donation")
        then process_new_donation config env payload
        else process_other_webhook env webhook_type payload) (fun result =>
  ret (mkJSONResponse result 200)))) w.
Proof.
  intros (key & Hkey & Hsig) Hjson. unfold handle_webhook.
  rewrite Hsig. cbn [default from_option id].
  unfold bind at 1. rewrite (verify_signature_valid _ key _ w Hkey). cbn [negb].
  unfold bind at 1, try_except, lift at 1. rewrite Hjson. reflexivity.
Qed.






(** C10: a validly signed body that decodes to a value that is not an
    object makes [data.get] raise [AttributeError]: the handler returns
    neither the 400 of invalid JSON nor a 200 result. *)
Theorem handle_webhook_non_object (config : Config) (env : Env) (request : Request)
    (data : pyval) (w : World) :
  validly_signed (api_key config) request ->
  json_loads (body request) = Ok data ->
  (forall d, data <> PDict d) ->
  handle_webhook config env request w = (Raise (mkExn AttributeError []), w).
Proof.
  intros Hsigned Hjson Hdata. rewrite (handle_webhook_parsed _ _ _ data w Hsigned Hjson).
  destruct data; try reflexivity. now destruct (Hdata d).
Qed.



End DispatcherFacts.

(** *** The dispatcher in the test environment *)

Lemma test_request_signed (b : bytes) :
  validly_signed (H := TestEnv.builtins) (Main.api_key TestEnv.config) (TestEnv.signed b).
Proof. exists (list_byte_of_string "secret"). split; reflexivity. Qed.

Lemma handle_webhook_non_object_witness :
  Main.handle_webhook (H := TestEnv.builtins) TestEnv.config
    (mkEnv TestEnv.server_up TestEnv.storage_up) (TestEnv.signed TestEnv.body_array)
    TestEnv.world0
  = (Raise (mkExn AttributeError []), TestEnv.world0).
Proof.
  apply (handle_webhook_non_object (H := TestEnv.builtins) TestEnv.config
           (mkEnv TestEnv.server_up TestEnv.storage_up) (TestEnv.signed TestEnv.body_array)
           (PList [PInt 1; PInt 2]) TestEnv.world0).
  - apply test_request_signed.
  - vm_compute. reflexivity.
  - discriminate.
Defined.





(** ** The scenarios of the specification, run in the test environment *)

Section Scenarios.
Import TestEnv.

Example classifier_error_wins :
  RconManager._check_response (H := builtins) (fail_ok [u "ok"]) (u "OK, but it did FAIL")
    (u "Steve") 100 = false.
Proof. vm_compute. reflexivity. Qed.

Example classifier_no_match_is_failure :
  RconManager._check_response (H := builtins) (fail_ok [u "ok"]) (u "nothing to see")
    (u "Steve") 100 = false.
Proof. vm_compute. reflexivity. Qed.

Example classifier_no_patterns_is_success :
  RconManager._check_response (H := builtins) (fail_ok []) (u "nothing to see")
    (u "Steve") 100 = true.
Proof. vm_compute. reflexivity. Qed.

Example classifier_error_without_success_patterns :
  RconManager._check_response (H := builtins) (fail_ok []) (u "§cFailed")
    (u "Steve") 100 = false.
Proof. vm_compute. reflexivity. Qed.

Example classifier_renders_placeholders :
  RconManager._check_response (H := builtins) manager (u "§cSTEVE not found")
    (u "Steve") 100 = false.
Proof. vm_compute. reflexivity. Qed.

(** Scenario 1: 10000 kopecks at 0.01 credit 100 units to Steve. *)
Example scenario_success :
  let '(response, w) :=
    Main.handle_webhook (H := builtins) config (mkEnv server_up storage_up)
      (signed body_rub) world0 in
  response
  = Ok (Main.mkJSONResponse
          (Main.DonationResult Success (u "Валюта успешно начислена через RCON")
             (Some (u "Steve")) 100) 200) /\
  rcon_sessions w = [u "eco give Steve 100"] /\ error_log w = [] /\
  length (webhooks w) = 1%nat.
Proof. vm_compute. repeat split. Qed.

(** Scenario 2: no player name, no command. *)
Example scenario_no_player_name :
  let '(result, w) :=
    Main.process_new_donation (H := builtins) config (mkEnv server_up storage_up)
      (PDict (list_to_map [ (u "message", PStr (u "")); (u "amount", PInt 10000);
                            (u "currency", PStr (u "RUB")) ])) world0 in
  result = Ok (Main.DonationResult Error (u "Не указано имя игрока в сообщении") None 0) /\
  rcon_sessions w = [].
Proof. vm_compute. repeat split. Qed.

(** Scenario 3: the connection is refused and the storage fails as well;
    the error result still carries the converted amount. *)
Example scenario_connection_refused :
  let '(result, w) :=
    Main.process_new_donation (H := builtins) config (mkEnv server_down storage_down)
      (PDict (list_to_map [ (u "message", PStr (u "Steve")); (u "amount", PInt 10000);
                            (u "currency", PStr (u "RUB")) ])) world0 in
  result = Ok (Main.DonationResult Error (u "Ошибка выполнения RCON команды")
                 (Some (u "Steve")) 100) /\
  rcon_sessions w = [u "eco give Steve 100"] /\ webhooks w = [] /\
  length (error_log w) = 5%nat.
Proof. vm_compute. repeat split. Qed.

(** A donation whose message is whitespace only raises out of the
    dispatcher, through [extract_player_name]. *)
Example scenario_blank_message :
  fst (Main.process_new_donation (H := builtins) config (mkEnv server_up storage_up)
         (PDict (list_to_map [ (u "message", PStr (u "   ")); (u "amount", PInt 10000);
                               (u "currency", PStr (u "RUB")) ])) world0)
  = Raise (mkExn IndexError []).
Proof. vm_compute. reflexivity. Qed.

End Scenarios.

(** * Further properties of the code *)

(** ** What a request leaves behind *)

Section WorldFacts.
Context `{Builtins}.
Import Main.

Lemma quiet_refl (w : World) : quiet w w.
Proof. split; [exists []; now rewrite app_nil_r | now split]. Qed.

Lemma quiet_trans (w1 w2 w3 : World) : quiet w1 w2 -> quiet w2 w3 -> quiet w1 w3.
Proof.
  intros ([l1 H1] & Hs1 & Hr1) ([l2 H2] & Hs2 & Hr2). split; [| split; congruence].
  exists (l1 ++ l2). now rewrite H2, H1, app_assoc.
Qed.

Lemma quiet_log (w : World) (msg : pystr) :
  quiet w (mkWorld (error_log w ++ [msg]) (rcon_sessions w) (webhooks w)).
Proof. split; [now exists [msg] | now split]. Qed.

Lemma quiet_extends (w w' : World) : quiet w w' -> extends w w'.
Proof. intros (Hl & Hs & Hr). split; [exact Hl | split; now left]. Qed.

(** Checking a signature touches nothing but the error log. *)
Lemma verify_signature_quiet (request_body : bytes) (signature api_key : pystr) (w : World) :
  quiet w (snd (verify_signature request_body signature api_key w)).
Proof.
  unfold verify_signature, bind, lift, encode_utf8.
  destruct (utf8_encode api_key); [| apply quiet_refl].
  destruct (compare_digest _ _) as [[|] | e]; cbn [snd];
    try apply quiet_refl. unfold log_error. cbn [snd]. apply quiet_log.
Qed.

(** So does the conversion, for every amount and currency value. *)
Lemma convert_quiet (config : Config) (amount currency : pyval) (w : World) :
  quiet w (snd (convert_to_game_currency config amount currency w)).
Proof.
  unfold convert_to_game_currency, bind, lift.
  destruct (py_upper currency) as [code | e]; [| apply quiet_refl].
  destruct (num_is_zero _).
  - unfold log_error, ret. cbn [snd]. apply quiet_log.
  - destruct (py_mul amount _) as [product | e]; [| apply quiet_refl].
    destruct (py_int product) as [g | e]; [| apply quiet_refl].
    destruct (py_truediv_100 amount); [| apply quiet_refl].
    destruct (int_str g); apply quiet_refl.
Qed.

Lemma add_currency_to_player_shape (self : RconManager.t) (env : Env) (player : pystr)
    (amount : Z) (w : World) :
  int_str amount = Ok (str_of_int amount) -> encodable player = true ->
  exists ok w',
    RconManager.add_currency_to_player self env player amount w = (Ok ok, w') /\
    (exists lines, error_log w' = error_log w ++ lines) /\
    rcon_sessions w' = rcon_sessions w ++ [command_for self player amount] /\
    webhooks w' = webhooks w /\
    (ok = true <->
     exists r, rcon_server env (command_for self player amount) = Ok r /\
               RconManager._check_response self r player amount = true).
Proof.
  intros Hstr Hplayer. unfold RconManager.add_currency_to_player.
  unfold bind at 1, lift at 1. rewrite Hstr. unfold bind at 1.
  rewrite execute_command_run, Hstr. cbv zeta.
  destruct (rcon_server env (command_for self player amount)) as [r | e].
  - destruct (RconManager._check_response self r player amount) eqn:Hcheck;
      unfold bind; rewrite ?log_info_ok
        by (rewrite info_line_encodable; [exact Hplayer | reflexivity ..]);
      unfold log_error, ret; do 2 eexists; (split; [reflexivity |]);
      cbn [rcon_sessions webhooks error_log].
    + split; [exists []; now rewrite app_nil_r |]. repeat split; eauto.
    + split; [rewrite <- app_assoc; eauto |]. repeat split; try discriminate.
      intros (r' & [= <-] & Hr'). congruence.
  - unfold bind, log_error, ret. do 2 eexists. split; [reflexivity |].
    cbn [rcon_sessions webhooks error_log].
    split; [rewrite <- !app_assoc; eauto |]. repeat split; try discriminate.
    intros (r' & Hr' & _). discriminate.
Qed.

(** The two ways [donation_result] can end: without a command (it raised,
    or the player name is missing), or after exactly one command, with a
    result that names the player and the amount. *)
Lemma donation_result_shape (config : Config) (env : Env) (payload : pyval) (w : World) :
  forall res w', donation_result config env payload w = (res, w') ->
  (quiet w w' /\
   forall result, res = Ok result ->
     result = DonationResult Error (u "Не указано имя игрока в сообщении") None 0) \/
  (exists player g ok reason,
     player <> [] /\
     res = Ok (DonationResult (if ok : bool then Success else Error) reason (Some player) g) /\
     (exists lines, error_log w' = error_log w ++ lines) /\
     rcon_sessions w' = rcon_sessions w ++ [command_for (rcon_manager config) player g] /\
     webhooks w' = webhooks w /\
     (ok = true <->
      exists r, rcon_server env (command_for (rcon_manager config) player g) = Ok r /\
        RconManager._check_response (rcon_manager config) r player g = true)).
Proof.
  intros res w' Hrun. destruct payload as [| | | | | |d];
    try (injection Hrun as <- <-; left; split; [apply quiet_refl | discriminate]).
  rewrite donation_result_dict in Hrun. cbv zeta in Hrun.
  destruct (extract_player_name _) as [player | e];
    [| injection Hrun as <- <-; left; split; [apply quiet_refl | discriminate]].
  destruct player as [|p player]; cbn [truthy negb] in Hrun.
  - unfold bind, log_error, ret in Hrun. injection Hrun as <- <-. left.
    split; [apply quiet_log | intros result Heq; now injection Heq].
  - unfold bind at 1 in Hrun.
    pose proof (convert_quiet config (dict_get d (u "amount") (PInt 0))
                  (dict_get d (u "currency") (PStr [])) w) as Hquiet.
    destruct (convert_to_game_currency config _ _ w) as [[g | e] w1] eqn:Hconv;
      cbn [snd] in Hquiet;
      [| injection Hrun as <- <-; left; split; [exact Hquiet | discriminate]].
    pose proof (convert_formats _ _ _ _ _ _ Hconv) as Hstr.
    unfold bind at 1 in Hrun.
    destruct (encodable (p :: player)) eqn:Henc.
    2: { rewrite log_info_fails in Hrun
           by (rewrite info_line_encodable; [exact Henc | reflexivity ..]).
         injection Hrun as <- <-. left. split; [exact Hquiet | discriminate]. }
    rewrite log_info_ok in Hrun
      by (rewrite info_line_encodable; [exact Henc | reflexivity ..]).
    destruct (add_currency_to_player_shape (rcon_manager config) env (p :: player) g w1
                Hstr Henc)
      as (ok & w2 & Hadd & [l2 Hl2] & Hs2 & Hr2 & Hok).
    unfold try_except, bind at 1 in Hrun. rewrite Hadd in Hrun.
    destruct Hquiet as ([l1 Hl1] & Hs1 & Hr1).
    right. exists (p :: player), g, ok.
    destruct ok; unfold bind in Hrun;
      rewrite ?log_info_ok in Hrun
        by (rewrite info_line_encodable; [exact Henc | reflexivity ..]);
      unfold log_error, ret in Hrun; injection Hrun as <- <-;
      eexists; (split; [discriminate |]); (split; [reflexivity |]);
      cbn [error_log rcon_sessions webhooks]; rewrite ?Hl2, ?Hs2, ?Hr2, ?Hl1, ?Hs1, ?Hr1.
    + split; [rewrite <- app_assoc; eauto |]. split; [reflexivity |]. split; [reflexivity |].
      exact Hok.
    + split; [rewrite <- !app_assoc; eauto |]. split; [reflexivity |].
      split; [reflexivity |]. exact Hok.
Qed.

Lemma save_best_effort_extends (env : Env) (r : WebhookRecord) (w : World) :
  let w' := snd (save_best_effort env r w) in
  (exists lines, error_log w' = error_log w ++ lines) /\
  rcon_sessions w' = rcon_sessions w /\
  (webhooks w' = webhooks w \/ webhooks w' = webhooks w ++ [r]).
Proof.
  rewrite save_best_effort_total. cbn [snd]. destruct (storage env r); cbn.
  - split; [eauto |]. split; [reflexivity | now left].
  - split; [exists []; now rewrite app_nil_r |]. split; [reflexivity | now right].
Qed.

Lemma process_new_donation_shape (config : Config) (env : Env) (payload : pyval) (w : World) :
  forall res w', process_new_donation config env payload w = (res, w') ->
  extends w w' /\
  (forall e, res = Raise e -> quiet w w') /\
  (forall result, res = Ok result -> result_status result = Success ->
     exists player g r,
       player <> [] /\ result_player_name result = Some player /\
       result_game_currency result = g /\
       rcon_server env (command_for (rcon_manager config) player g) = Ok r /\
       RconManager._check_response (rcon_manager config) r player g = true /\
       rcon_sessions w' = rcon_sessions w ++ [command_for (rcon_manager config) player g]).
Proof.
  intros res w' Hrun. rewrite process_new_donation_split in Hrun.
  destruct (donation_result config env payload w) as [res1 w1] eqn:Hresult.
  pose proof (donation_result_shape config env payload w res1 w1 Hresult) as Hshape.
  destruct res1 as [result | e].
  - pose proof (save_best_effort_extends env (donation_record payload result) w1)
      as ([l2 Hl2] & Hs2 & Hr2).
    injection Hrun as <- <-. cbv zeta in Hl2, Hs2, Hr2.
    destruct Hshape as [[([l1 Hl1] & Hs1 & Hr1) Hnoname]
                       | (player & g & ok & reason & Hne & Hres & [l1 Hl1] & Hs1 & Hr1 & Hok)].
    + split; [| split; [discriminate |]].
      * split; [exists (l1 ++ l2); now rewrite Hl2, Hl1, app_assoc |].
        split; [left; congruence |].
        destruct Hr2 as [Hr2 | Hr2]; [left; congruence | right; eexists; now rewrite Hr2, Hr1].
      * intros result' [= <-] Hstatus. rewrite (Hnoname result eq_refl) in Hstatus.
        discriminate.
    + injection Hres as ->. split; [| split; [discriminate |]].
      * split; [exists (l1 ++ l2); now rewrite Hl2, Hl1, app_assoc |].
        split; [right; eexists; now rewrite Hs2, Hs1 |].
        destruct Hr2 as [Hr2 | Hr2]; [left; congruence | right; eexists; now rewrite Hr2, Hr1].
      * intros result' [= <-] Hstatus. cbn [result_status] in Hstatus.
        destruct ok; [| discriminate].
        destruct (proj1 Hok eq_refl) as (r & Hserver & Hcheck).
        exists player, g, r. cbn [result_player_name result_game_currency].
        rewrite Hs2, Hs1. now repeat split.
  - injection Hrun as <- <-.
    destruct Hshape as [[Hquiet _] | (player & g & ok & reason & _ & Hres & _)];
      [| discriminate].
    split; [now apply quiet_extends |]. split; [now intros e' _ | discriminate].
Qed.

Lemma process_other_webhook_shape (env : Env) (webhook_type payload : pyval) (w : World) :
  exists result w',
    process_other_webhook env webhook_type payload w = (Ok result, w') /\
    result_status result = Received /\ extends w w'.
Proof.
  unfold process_other_webhook, bind, ret.
  pose proof (save_best_effort_extends env
                (mkWebhookRecord webhook_type payload Received None 0 None) w)
    as (Hl & Hs & Hr). cbv zeta in Hl, Hs, Hr.
  destruct (save_best_effort env _ w) as [[[] | e] w1] eqn:Hsave.
  - do 2 eexists. split; [reflexivity |]. split; [reflexivity |].
    cbn [snd] in *. split; [exact Hl |]. split; [now left |].
    destruct Hr as [Hr | Hr]; [now left | right; eexists; exact Hr].
  - rewrite save_best_effort_total in Hsave. discriminate.
Qed.

(** A signature is accepted only when it is the hexadecimal digest. *)
Lemma verify_signature_accepts (request_body : bytes) (signature api_key : pystr)
    (w w' : World) :
  verify_signature request_body signature api_key w = (Ok true, w') ->
  w' = w /\
  exists key, utf8_encode api_key = Some key /\
              signature = hex_encode (hmac_sha256 key request_body).
Proof.
  unfold verify_signature, bind, lift, encode_utf8, compare_digest.
  destruct (utf8_encode api_key) as [key|]; [| discriminate].
  destruct (forallb is_ascii signature && _); [| discriminate].
  unfold pystr_eqb. destruct (bool_decide _) eqn:Heq.
  - intros [= <-]. apply bool_decide_eq_true_1 in Heq. eauto.
  - unfold log_error, ret. discriminate.
Qed.

(** Every way [handle_webhook] can end. *)
Lemma handle_webhook_shape (config : Config) (env : Env) (request : Request) (w : World) :
  forall res w', handle_webhook config env request w = (res, w') ->
  extends w w' /\
  (forall e, res = Raise e -> quiet w w') /\
  (forall response, res = Ok response ->
     status_code response = 200 /\
     (exists key, utf8_encode (api_key config) = Some key /\
        default [] (trbt_signature request)
        = hex_encode (hmac_sha256 key (body request))) /\
     (result_status (content response) = Success ->
      exists player g r,
        player <> [] /\ result_player_name (content response) = Some player /\
        result_game_currency (content response) = g /\
        rcon_server env (command_for (rcon_manager config) player g) = Ok r /\
        RconManager._check_response (rcon_manager config) r player g = true /\
        rcon_sessions w' = rcon_sessions w ++ [command_for (rcon_manager config) player g])).
Proof.
  intros res w' Hrun. unfold handle_webhook in Hrun. unfold bind at 1 in Hrun.
  pose proof (verify_signature_quiet (body request) (default [] (trbt_signature request))
                (api_key config) w) as Hquiet.
  destruct (verify_signature _ _ _ w) as [[valid | e] w1] eqn:Hverify; cbn [snd] in Hquiet.
  2: { injection Hrun as <- <-. split; [now apply quiet_extends |].
       split; [now intros | discriminate]. }
  destruct valid; cbn [negb] in Hrun.
  2: { unfold bind, log_error, raise in Hrun. injection Hrun as <- <-.
       assert (Hq : quiet w (mkWorld (error_log w1 ++ [u "🚫 WEBHOOK ОТКЛОНЕН: Неверная подпись"])
                               (rcon_sessions w1) (webhooks w1)))
         by (eapply quiet_trans; [exact Hquiet | apply quiet_log]).
       split; [now apply quiet_extends |]. split; [now intros | discriminate]. }
  apply verify_signature_accepts in Hverify as [-> Hkey]. clear Hquiet.
  unfold bind at 1, try_except, lift at 1 in Hrun.
  destruct (json_loads (body request)) as [data | e].
  2: { cbn [dispatch] in Hrun. destruct (has_class JSONDecodeError e).
       - unfold bind, log_error, raise in Hrun. injection Hrun as <- <-.
         split; [apply quiet_extends, quiet_log |].
         split; [intros; apply quiet_log | discriminate].
       - unfold raise in Hrun. injection Hrun as <- <-.
         split; [apply quiet_extends, quiet_refl |].
         split; [intros; apply quiet_refl | discriminate]. }
  unfold bind at 1, lift at 1 in Hrun.
  destruct (py_get data (u "name") (PStr [])) as [webhook_type | e].
  2: { injection Hrun as <- <-. split; [apply quiet_extends, quiet_refl |].
       split; [intros; apply quiet_refl | discriminate]. }
  unfold bind at 1, lift at 1 in Hrun.
  destruct (py_get data (u "payload") (PDict ∅)) as [payload | e].
  2: { injection Hrun as <- <-. split; [apply quiet_extends, quiet_refl |].
       split; [intros; apply quiet_refl | discriminate]. }
  unfold bind, ret in Hrun.
  destruct (py_eq_str webhook_type (u "new_donation")).
  - destruct (process_new_donation config env payload w) as [res1 w1] eqn:Hprocess.
    destruct (process_new_donation_shape config env payload w res1 w1 Hprocess)
      as (Hext & Hraise & Hok).
    destruct res1 as [result | e]; injection Hrun as <- <-.
    + split; [exact Hext |]. split; [discriminate |].
      intros response [= <-]. cbn [status_code content].
      split; [reflexivity |]. split; [exact Hkey |]. now apply Hok.
    + split; [exact Hext |]. split; [| discriminate]. intros e' _. now apply (Hraise e).
  - destruct (process_other_webhook_shape env webhook_type payload w)
      as (result & w1 & Hprocess & Hstatus & Hext).
    rewrite Hprocess in Hrun. injection Hrun as <- <-.
    split; [exact Hext |]. split; [discriminate |].
    intros response [= <-]. cbn [status_code content].
    split; [reflexivity |]. split; [exact Hkey |]. rewrite Hstatus. discriminate.
Qed.

End WorldFacts.

Section RequestFootprint.
Context `{Builtins}.
Import Main.

(** X1: whatever the request and whatever the RCON server and the storage
    do, [handle_webhook] only appends lines to the error log, opens at
    most one RCON session and stores at most one webhook row. *)
Theorem handle_webhook_footprint (config : Config) (env : Env) (request : Request)
    (w : World) :
  extends w (snd (handle_webhook config env request w)).
Proof.
  destruct (handle_webhook config env request w) as [res w'] eqn:Hrun.
  now destruct (handle_webhook_shape config env request w res w' Hrun).
Qed.

(** X2: when [handle_webhook] raises (the 401 of a bad signature, the 400
    of a body that is not JSON, or an exception nobody handles) no RCON
    session was opened and no row was stored: only the error log may have
    grown. *)
Theorem handle_webhook_failure_is_quiet (config : Config) (env : Env) (request : Request)
    (w : World) (e : exn) :
  fst (handle_webhook config env request w) = Raise e ->
  quiet w (snd (handle_webhook config env request w)).
Proof.
  destruct (handle_webhook config env request w) as [res w'] eqn:Hrun.
  destruct (handle_webhook_shape config env request w res w' Hrun) as (_ & Hraise & _).
  cbn [fst snd]. intros ->. now apply (Hraise e).
Qed.

(** X3: a request reaches the game server or the webhook table only with
    the right signature: if [handle_webhook] opened an RCON session or
    stored a row, the [trbt-signature] header (the empty string when
    absent) is the hexadecimal HMAC-SHA256 of the body under the
    configured API key. *)
Theorem handle_webhook_effects_need_signature (config : Config) (env : Env)
    (request : Request) (w : World) :
  let w' := snd (handle_webhook config env request w) in
  rcon_sessions w' <> rcon_sessions w \/ webhooks w' <> webhooks w ->
  exists key, utf8_encode (api_key config) = Some key /\
    default [] (trbt_signature request) = hex_encode (hmac_sha256 key (body request)).
Proof.
  destruct (handle_webhook config env request w) as [res w'] eqn:Hrun.
  destruct (handle_webhook_shape config env request w res w' Hrun) as (_ & Hraise & Hok).
  cbn [snd]. intros Hchanged. destruct res as [response | e].
  - now destruct (Hok response eq_refl) as (_ & Hkey & _).
  - destruct (Hraise e eq_refl) as (_ & Hs & Hr). destruct Hchanged; contradiction.
Qed.

(** X4: a response with status [success] means the command was delivered:
    the result names a non-empty player, the RCON server answered the
    command rendered for that player and the result's amount, the
    classifier accepted the answer, and that command is the one session
    the request opened. *)
Theorem handle_webhook_success_means_delivered (config : Config) (env : Env)
    (request : Request) (w w' : World) (response : JSONResponse) :
  handle_webhook config env request w = (Ok response, w') ->
  result_status (content response) = Success ->
  exists player g r,
    player <> [] /\ result_player_name (content response) = Some player /\
    result_game_currency (content response) = g /\
    rcon_server env (command_for (rcon_manager config) player g) = Ok r /\
    RconManager._check_response (rcon_manager config) r player g = true /\
    rcon_sessions w' = rcon_sessions w ++ [command_for (rcon_manager config) player g].
Proof.
  intros Hrun Hstatus.
  destruct (handle_webhook_shape config env request w _ w' Hrun) as (_ & _ & Hok).
  destruct (Hok response eq_refl) as (_ & _ & Hdelivered). now apply Hdelivered.
Qed.

(** X5: only [json.JSONDecodeError] is answered with 400.  When
    [json.loads] raises another exception on a validly signed body
    ([UnicodeDecodeError] for bytes that are not UTF-8), that exception
    leaves [handle_webhook] unhandled, with nothing logged, opened or
    stored. *)
Theorem handle_webhook_decoder_error_propagates (config : Config) (env : Env)
    (request : Request) (e : exn) (w : World) :
  validly_signed (api_key config) request ->
  json_loads (body request) = Raise e ->
  exn_class_of e <> JSONDecodeError ->
  handle_webhook config env request w = (Raise e, w).
Proof.
  intros (key & Hkey & Hsig) Hjson Hclass. unfold handle_webhook.
  rewrite Hsig. cbn [default from_option id].
  unfold bind at 1. rewrite (verify_signature_valid _ key _ w Hkey). cbn [negb].
  unfold bind at 1, try_except, lift at 1. rewrite Hjson. cbn [dispatch].
  unfold has_class. now rewrite bool_decide_eq_false_2.
Qed.

(** X6: with an API key that UTF-8 encodes, [verify_signature] returns
    [True] for one signature only: the lower-case hexadecimal HMAC-SHA256
    of the request body under the key. *)
Theorem verify_signature_true_iff (request_body key : bytes) (signature api_key : pystr)
    (w : World) :
  utf8_encode api_key = Some key ->
  fst (verify_signature request_body signature api_key w) = Ok true <->
  signature = hex_encode (hmac_sha256 key request_body).
Proof.
  intros Hkey. split.
  - destruct (verify_signature request_body signature api_key w) as [res w'] eqn:Hrun.
    cbn [fst]. intros ->.
    apply verify_signature_accepts in Hrun as (_ & key' & Hkey' & Hsig).
    rewrite Hkey in Hkey'. now injection Hkey' as <-.
  - intros ->. now rewrite (verify_signature_valid request_body key api_key w Hkey).
Qed.

End RequestFootprint.

Lemma handle_webhook_failure_is_quiet_witness :
  quiet TestEnv.world0
    (snd (Main.handle_webhook (H := TestEnv.builtins) TestEnv.config
            (mkEnv TestEnv.server_up TestEnv.storage_up)
            (Main.mkRequest TestEnv.body_rub (Some (u "00"))) TestEnv.world0)).
Proof.
  apply (handle_webhook_failure_is_quiet (H := TestEnv.builtins) TestEnv.config
           (mkEnv TestEnv.server_up TestEnv.storage_up)
           (Main.mkRequest TestEnv.body_rub (Some (u "00"))) TestEnv.world0
           (mkExn (HTTPException 401) (u "Invalid webhook signature"))).
  vm_compute. reflexivity.
Defined.

Lemma handle_webhook_effects_need_signature_witness :
  exists key, utf8_encode (Main.api_key TestEnv.config) = Some key /\
    default [] (Main.trbt_signature (TestEnv.signed TestEnv.body_rub))
    = hex_encode (hmac_sha256 (Builtins := TestEnv.builtins) key
                    (Main.body (TestEnv.signed TestEnv.body_rub))).
Proof.
  apply (handle_webhook_effects_need_signature (H := TestEnv.builtins) TestEnv.config
           (mkEnv TestEnv.server_up TestEnv.storage_up) (TestEnv.signed TestEnv.body_rub)
           TestEnv.world0).
  left. vm_compute. discriminate.
Defined.

Lemma handle_webhook_success_means_delivered_witness :
  exists r,
    TestEnv.server_up (command_for TestEnv.manager (u "Steve") 100) = Ok r /\
    RconManager._check_response (H := TestEnv.builtins) TestEnv.manager r (u "Steve") 100
    = true.
Proof.
  destruct (handle_webhook_success_means_delivered (H := TestEnv.builtins) TestEnv.config
              (mkEnv TestEnv.server_up TestEnv.storage_up) (TestEnv.signed TestEnv.body_rub)
              TestEnv.world0
              (snd (Main.handle_webhook (H := TestEnv.builtins) TestEnv.config
                      (mkEnv TestEnv.server_up TestEnv.storage_up)
                      (TestEnv.signed TestEnv.body_rub) TestEnv.world0))
              (Main.mkJSONResponse
                 (Main.DonationResult Success (u "Валюта успешно начислена через RCON")
                    (Some (u "Steve")) 100) 200))
    as (player & g & r & _ & Hplayer & Hg & Hserver & Hcheck & _).
  - vm_compute. reflexivity.
  - reflexivity.
  - cbn in Hplayer, Hg. injection Hplayer as <-. subst g. now exists r.
Defined.

Lemma handle_webhook_decoder_error_propagates_witness :
  Main.handle_webhook (H := TestEnv.builtins_binary) TestEnv.config
    (mkEnv TestEnv.server_up TestEnv.storage_up)
    (Main.mkRequest TestEnv.body_binary
       (Some (u "877164fcec3e98076451fb62279a6d04f54fb286cd61f72d7ffc3bb000f5badf")))
    TestEnv.world0
  = (Raise (mkExn UnicodeDecodeError
              (u "'utf-8' codec can't decode byte 0xff in position 0: invalid start byte")),
     TestEnv.world0).
Proof.
  apply (handle_webhook_decoder_error_propagates (H := TestEnv.builtins_binary)).
  - exists (list_byte_of_string "secret"). split; vm_compute; reflexivity.
  - vm_compute. reflexivity.
  - discriminate.
Defined.

Lemma verify_signature_true_iff_witness :
  fst (Main.verify_signature (H := TestEnv.builtins) TestEnv.body_rub
         (u "3a800720975ba793945671d9ac1c0faff03998d410900853bf720e6691f47b56")
         (u "secret") TestEnv.world0) = Ok true <->
  u "3a800720975ba793945671d9ac1c0faff03998d410900853bf720e6691f47b56"
  = hex_encode (hmac_sha256 (Builtins := TestEnv.builtins) (list_byte_of_string "secret")
                  TestEnv.body_rub).
Proof.
  apply (verify_signature_true_iff (H := TestEnv.builtins) TestEnv.body_rub
           (list_byte_of_string "secret")).
  vm_compute. reflexivity.
Defined.

(** ** The command and the classifier *)

Section ReplaceFacts.

Lemma replace_from_cons (old new : pystr) (skip : nat) (c : N) (rest : pystr) :
  replace_from old new skip (c :: rest) =
  match skip with
  | S k => replace_from old new k rest
  | O =>
    if starts_with old (c :: rest)
    then new ++ replace_from old new (Nat.pred (length old)) rest
    else c :: replace_from old new 0 rest
  end.
Proof. reflexivity. Qed.

Lemma replace_unfold (old new s : pystr) : replace old new s = replace_from old new 0 s.
Proof. reflexivity. Qed.

Lemma replace_from_skip (old new s t : pystr) :
  replace_from old new (length s) (s ++ t) = replace_from old new 0 t.
Proof.
  induction s as [|c s IH]; [reflexivity |].
  cbn [length app]. rewrite replace_from_cons. exact IH.
Qed.

Lemma starts_with_refl (p t : pystr) : starts_with p (p ++ t) = true.
Proof. apply starts_with_spec. now exists t. Qed.

(** A match at the start is replaced and the scan resumes after it. *)
Lemma replace_at (old new t : pystr) :
  old <> [] -> replace old new (old ++ t) = new ++ replace old new t.
Proof.
  intros Hne. unfold replace. destruct old as [|h old]; [now destruct Hne |].
  rewrite <- app_comm_cons, replace_from_cons, app_comm_cons, starts_with_refl.
  cbn [length Nat.pred]. now rewrite replace_from_skip.
Qed.

(** No match starts at a character that is not the first of [old]. *)
Lemma starts_with_head (h c : N) (old s : pystr) :
  c <> h -> starts_with (h :: old) (c :: s) = false.
Proof.
  intros Hne. cbn [starts_with]. apply N.eqb_neq in Hne.
  rewrite N.eqb_sym, Hne. reflexivity.
Qed.

Lemma replace_before (h : N) (old new a t : pystr) :
  ~ In h a ->
  replace (h :: old) new (a ++ t) = a ++ replace (h :: old) new t.
Proof.
  intros Hnot. unfold replace. induction a as [|c a IH]; [reflexivity |].
  rewrite <- !app_comm_cons, replace_from_cons, starts_with_head.
  - f_equal. apply IH. intros Hin. apply Hnot. now right.
  - intros ->. apply Hnot. now left.
Qed.

Lemma replace_absent (h : N) (old new s : pystr) :
  ~ In h s -> replace (h :: old) new s = s.
Proof.
  intros Hnot. rewrite <- (app_nil_r s) at 1. rewrite (replace_before h old new s [] Hnot).
  now rewrite app_nil_r.
Qed.

Lemma starts_with_In (p s : pystr) (c : N) :
  starts_with p s = true -> In c p -> In c s.
Proof.
  intros [b ->]%starts_with_spec Hin. apply in_or_app. now left.
Qed.

End ReplaceFacts.

Section RenderingFacts.
Import RconManager.

Lemma no_percent_app (a b : pystr) :
  ~ In percent a -> ~ In percent b -> ~ In percent (a ++ b).
Proof. intros Ha Hb [Hin | Hin]%in_app_or; contradiction. Qed.

Lemma player_placeholder_head : u "%player_name%" = percent :: u "player_name%".
Proof. reflexivity. Qed.

Lemma amount_placeholder_head : u "%amount%" = percent :: u "amount%".
Proof. reflexivity. Qed.

(** The text after the player placeholder holds no second one. *)
Lemma player_placeholder_absent (new mid post : pystr) :
  ~ In percent mid -> ~ In percent post ->
  replace (u "%player_name%") new (mid ++ u "%amount%" ++ post) =
  mid ++ u "%amount%" ++ post.
Proof.
  intros Hmid Hpost. rewrite player_placeholder_head.
  rewrite (replace_before percent _ new mid _ Hmid). f_equal.
  change (u "%amount%" ++ post) with (percent :: u "amount" ++ percent :: post).
  unfold replace. rewrite replace_from_cons.
  change (starts_with (percent :: u "player_name%")
            (percent :: u "amount" ++ percent :: post)) with false.
  cbv iota. f_equal. rewrite <- replace_unfold.
  rewrite (replace_before percent _ new (u "amount")) by (vm_compute; intuition discriminate).
  f_equal. unfold replace. rewrite replace_from_cons.
  destruct (starts_with (percent :: u "player_name%") (percent :: post)) eqn:Hmatch.
  - exfalso. apply Hpost.
    cbn [starts_with] in Hmatch. apply andb_prop in Hmatch as [_ Hmatch].
    apply (starts_with_In (u "player_name%") post percent Hmatch).
    vm_compute. intuition.
  - f_equal. rewrite <- replace_unfold. now apply replace_absent.
Qed.

(** The rendered command of a template with the player placeholder, then
    the amount placeholder, and no other percent sign. *)
Lemma command_for_template (self : t) (pre mid post player : pystr) (amount : Z) :
  command_template self = pre ++ u "%player_name%" ++ mid ++ u "%amount%" ++ post ->
  ~ In percent pre -> ~ In percent mid -> ~ In percent post -> ~ In percent player ->
  command_for self player amount = pre ++ player ++ mid ++ str_of_int amount ++ post.
Proof.
  intros Htemplate Hpre Hmid Hpost Hplayer. unfold command_for. rewrite Htemplate.
  assert (Hfirst :
    replace (u "%player_name%") player
      (pre ++ u "%player_name%" ++ mid ++ u "%amount%" ++ post)
    = pre ++ player ++ mid ++ u "%amount%" ++ post).
  { rewrite player_placeholder_head at 1.
    rewrite (replace_before percent _ player pre _ Hpre).
    rewrite <- player_placeholder_head.
    rewrite replace_at by (vm_compute; discriminate).
    now rewrite player_placeholder_absent. }
  rewrite Hfirst, !app_assoc, <- (app_assoc _ (u "%amount%") post).
  rewrite amount_placeholder_head at 1.
  rewrite (replace_before percent _ _ ((pre ++ player) ++ mid))
    by (now repeat apply no_percent_app).
  rewrite <- amount_placeholder_head.
  rewrite replace_at by (vm_compute; discriminate).
  rewrite amount_placeholder_head, (replace_absent percent _ _ post Hpost).
  now rewrite <- !app_assoc.
Qed.

End RenderingFacts.

Section ClassifierEdges.
Context `{Builtins}.
Import RconManager.

Lemma replace_placeholders_plain (p player : pystr) (amount : Z) :
  ~ In open_brace p -> _replace_placeholders p player amount = p.
Proof.
  intros Hplain. unfold _replace_placeholders.
  change (u "{player}") with (open_brace :: u "player}").
  change (u "{amount}") with (open_brace :: u "amount}").
  rewrite (replace_absent open_brace _ player p Hplain).
  now rewrite (replace_absent open_brace _ _ p Hplain).
Qed.

Lemma pattern_loop_plain (patterns : list pystr) (p1 p2 : pystr) (a1 a2 : Z) (r : pystr) :
  Forall (fun p => ~ In open_brace p) patterns ->
  pattern_loop patterns p1 a1 r = pattern_loop patterns p2 a2 r.
Proof.
  induction 1 as [|p rest Hp _ IH]; [reflexivity |].
  cbn [pattern_loop]. now rewrite !replace_placeholders_plain, IH.
Qed.

Lemma pattern_loop_app (ps qs : list pystr) (player : pystr) (amount : Z) (r : pystr) :
  pattern_loop (ps ++ qs) player amount r
  = pattern_loop ps player amount r || pattern_loop qs player amount r.
Proof.
  induction ps as [|p ps IH]; [reflexivity |]. cbn [app pattern_loop].
  destruct (contains _ r); [reflexivity | exact IH].
Qed.

Lemma pattern_loop_empty_pattern (patterns : list pystr) (player : pystr) (amount : Z)
    (r : pystr) :
  In [] patterns -> pattern_loop patterns player amount r = true.
Proof.
  intros Hin. apply pattern_loop_spec, Exists_exists. exists []. split; [now apply list_elem_of_In |].
  change (_replace_placeholders [] player amount) with (@nil N).
  rewrite (str_lower_ascii [] eq_refl). now exists [], r.
Qed.

End ClassifierEdges.

Section StripFacts.
Import RconManager.

(** Substitution by the empty string only deletes characters. *)
Lemma re_sub_empty_sublist (m : pystr -> option nat) (skip : nat) (s : pystr) :
  sublist (re_sub_empty m skip s) s.
Proof.
  revert skip. induction s as [|c s IH]; intros skip; [constructor |].
  rewrite re_sub_empty_cons. destruct skip as [|k]; [| constructor 3; apply IH].
  destruct (m (c :: s)) as [[|n]|]; [constructor 2 | constructor 3 | constructor 2]; apply IH.
Qed.

End StripFacts.

Section ManagerProperties.
Context `{Builtins}.
Import RconManager.

(** X7: for a command template that holds the player placeholder, then
    the amount placeholder, and no other percent sign, and a player name
    without a percent sign, the command of the one RCON session is the
    template with the name and the decimal amount in place of the
    placeholders, for every amount [str] formats, that is of at most
    4300 digits; for a longer amount [str(amount)] raises before a
    session is opened, and the world is left as it was. *)
Theorem execute_command_renders_template (self : t) (env : Env)
    (pre mid post player : pystr) (amount : Z) (w : World) :
  command_template self = pre ++ u "%player_name%" ++ mid ++ u "%amount%" ++ post ->
  ~ In percent pre -> ~ In percent mid -> ~ In percent post -> ~ In percent player ->
  (Z.abs amount < 10 ^ int_max_str_digits ->
   rcon_sessions (snd (execute_command self env player amount w))
   = rcon_sessions w ++ [pre ++ player ++ mid ++ str_of_int amount ++ post]) /\
  (10 ^ int_max_str_digits <= Z.abs amount ->
   exists e, execute_command self env player amount w = (Raise e, w)).
Proof.
  intros Htemplate Hpre Hmid Hpost Hplayer. rewrite execute_command_run. split.
  - intros Hsmall. rewrite (int_str_small amount Hsmall). cbv zeta.
    rewrite (command_for_template self pre mid post player amount) by assumption.
    now destruct (rcon_server env _).
  - intros Hlarge. destruct (int_str_large amount Hlarge) as [e ->]. now exists e.
Qed.

(** X8: when no configured pattern holds an opening brace, the verdict on
    a response does not depend on the player name or the amount. *)
Theorem check_response_ignores_arguments (self : t) (r p1 p2 : pystr) (a1 a2 : Z) :
  Forall (fun p => ~ In open_brace p) (error_patterns self) ->
  Forall (fun p => ~ In open_brace p) (success_patterns self) ->
  _check_response self r p1 a1 = _check_response self r p2 a2.
Proof.
  intros Herr Hsucc. unfold _check_response.
  rewrite (pattern_loop_plain (error_patterns self) p1 p2 a1 a2 _ Herr).
  now rewrite (pattern_loop_plain (success_patterns self) p1 p2 a1 a2 _ Hsucc).
Qed.

(** X9: an empty string among the error patterns matches every response:
    every command is then classified as failed. *)
Theorem check_response_empty_error_pattern (self : t) (r player : pystr) (amount : Z) :
  In [] (error_patterns self) -> _check_response self r player amount = false.
Proof.
  intros Hin. unfold _check_response.
  now rewrite (pattern_loop_empty_pattern (error_patterns self) player amount _ Hin).
Qed.

(** X10: more error patterns only reject more: a response accepted with
    further error patterns configured is accepted without them. *)
Theorem check_response_more_error_patterns (self : t) (extra : list pystr)
    (r player : pystr) (amount : Z) :
  _check_response (with_patterns self (success_patterns self) (error_patterns self ++ extra))
    r player amount = true ->
  _check_response self r player amount = true.
Proof.
  unfold _check_response, with_patterns. cbn [error_patterns success_patterns].
  rewrite pattern_loop_app.
  destruct (pattern_loop (error_patterns self) player amount _); [discriminate |].
  cbn [orb]. now destruct (pattern_loop extra player amount _).
Qed.

(** X11: once there is a success pattern, more success patterns only
    accept more: a response accepted by a manager with a non-empty success
    list is accepted with further success patterns configured. *)
Theorem check_response_more_success_patterns (self : t) (extra : list pystr)
    (r player : pystr) (amount : Z) :
  success_patterns self <> [] ->
  _check_response self r player amount = true ->
  _check_response (with_patterns self (success_patterns self ++ extra) (error_patterns self))
    r player amount = true.
Proof.
  intros Hsome. unfold _check_response, with_patterns. cbn [error_patterns success_patterns].
  rewrite pattern_loop_app.
  destruct (pattern_loop (error_patterns self) player amount _); [discriminate |].
  destruct (pattern_loop (success_patterns self) player amount _); [reflexivity |].
  destruct (success_patterns self) as [|p ps]; [contradiction | discriminate].
Qed.

(** X12: stripping colour codes only deletes characters: the result is a
    subsequence of the text, in the same order. *)
Theorem strip_minecraft_colors_sublist (text : pystr) :
  sublist (_strip_minecraft_colors text) text.
Proof.
  unfold _strip_minecraft_colors. cbv zeta.
  etransitivity; apply re_sub_empty_sublist.
Qed.

End ManagerProperties.

Lemma execute_command_renders_template_witness :
  rcon_sessions
    (snd (RconManager.execute_command (H := TestEnv.builtins) TestEnv.manager
            (mkEnv TestEnv.server_down TestEnv.storage_up) (u "Steve") (-5) TestEnv.world0))
  = rcon_sessions TestEnv.world0
    ++ [u "eco give " ++ u "Steve" ++ u " " ++ str_of_int (-5) ++ []].
Proof.
  apply (execute_command_renders_template (H := TestEnv.builtins) TestEnv.manager
           (mkEnv TestEnv.server_down TestEnv.storage_up) (u "eco give ") (u " ") []
           (u "Steve") (-5) TestEnv.world0).
  - reflexivity.
  - vm_compute. intuition discriminate.
  - vm_compute. intuition discriminate.
  - vm_compute. intuition.
  - vm_compute. intuition discriminate.
  - vm_compute. reflexivity.
Defined.

Lemma check_response_ignores_arguments_witness :
  RconManager._check_response (H := TestEnv.builtins) (TestEnv.fail_ok [u "success"])
    (u "Success") (u "Steve") 100
  = RconManager._check_response (H := TestEnv.builtins) (TestEnv.fail_ok [u "success"])
      (u "Success") (u "Alex") 7.
Proof.
  apply (check_response_ignores_arguments (H := TestEnv.builtins)
           (TestEnv.fail_ok [u "success"]) (u "Success") (u "Steve") (u "Alex") 100 7).
  - repeat constructor. vm_compute. intuition discriminate.
  - repeat constructor. vm_compute. intuition discriminate.
Defined.

Lemma check_response_empty_error_pattern_witness :
  RconManager._check_response (H := TestEnv.builtins)
    (with_patterns TestEnv.manager [u "success"] [u "fail"; []])
    (u "Success") (u "Steve") 100
  = false.
Proof.
  apply (check_response_empty_error_pattern (H := TestEnv.builtins)
           (with_patterns TestEnv.manager [u "success"] [u "fail"; []])
           (u "Success") (u "Steve") 100).
  right. now left.
Defined.

Lemma check_response_more_error_patterns_witness :
  RconManager._check_response (H := TestEnv.builtins) (TestEnv.fail_ok [u "success"])
    (u "Success") (u "Steve") 100
  = true.
Proof.
  apply (check_response_more_error_patterns (H := TestEnv.builtins)
           (TestEnv.fail_ok [u "success"]) [u "unknown"] (u "Success") (u "Steve") 100).
  vm_compute. reflexivity.
Defined.

Lemma check_response_more_success_patterns_witness :
  RconManager._check_response (H := TestEnv.builtins)
    (with_patterns (TestEnv.fail_ok [u "success"])
       (RconManager.success_patterns (TestEnv.fail_ok [u "success"]) ++ [u "given"])
       (RconManager.error_patterns (TestEnv.fail_ok [u "success"])))
    (u "Success") (u "Steve") 100
  = true.
Proof.
  apply (check_response_more_success_patterns (H := TestEnv.builtins)
           (TestEnv.fail_ok [u "success"]) [u "given"] (u "Success") (u "Steve") 100).
  - discriminate.
  - vm_compute. reflexivity.
Defined.

(** ** The message of a donation *)

Section WordFacts.
Import Main.

Lemma lstrip_split (s : pystr) : exists sp, blank sp /\ s = sp ++ lstrip s.
Proof.
  induction s as [|c s (sp & Hsp & IH)]; [exists []; split; [constructor | reflexivity] |].
  simpl. destruct (is_space c) eqn:Hc.
  - exists (c :: sp). split; [now constructor | cbn [app]; f_equal; exact IH].
  - exists []. split; [constructor | reflexivity].
Qed.

Lemma lstrip_head (s : pystr) (c : N) (rest : pystr) :
  lstrip s = c :: rest -> is_space c = false.
Proof.
  induction s as [|x s IH]; [discriminate |]. simpl.
  destruct (is_space x) eqn:Hx; [exact IH | now intros [= <- _]].
Qed.

Lemma split_from_blank (sp cur : pystr) :
  blank sp -> split_from cur sp = split_from cur [].
Proof.
  intros Hsp. revert cur. induction Hsp as [|c sp Hc _ IH]; intros cur; [reflexivity |].
  cbn [split_from]. rewrite Hc. destruct cur; rewrite IH; reflexivity.
Qed.

Lemma split_from_trailing (s sp cur : pystr) :
  blank sp -> split_from cur (s ++ sp) = split_from cur s.
Proof.
  intros Hsp. revert cur. induction s as [|c s IH]; intros cur.
  - now apply split_from_blank.
  - cbn [app split_from]. destruct (is_space c); [destruct cur |]; now rewrite IH.
Qed.

Lemma split_from_leading (sp s : pystr) :
  blank sp -> split_from [] (sp ++ s) = split_from [] s.
Proof.
  induction 1 as [|c sp Hc _ IH]; [reflexivity |].
  cbn [app split_from]. now rewrite Hc.
Qed.

(** Stripping does not change the words of a string. *)
Lemma split_strip (s : pystr) : split (strip s) = split s.
Proof.
  unfold split, strip.
  destruct (lstrip_split s) as (sp1 & Hsp1 & Hs).
  destruct (lstrip_split (rev (lstrip s))) as (sp2 & Hsp2 & Hrev).
  assert (Ht : lstrip s = rev (lstrip (rev (lstrip s))) ++ rev sp2).
  { rewrite <- rev_app_distr, <- Hrev. now rewrite rev_involutive. }
  rewrite Hs at 2. rewrite split_from_leading by exact Hsp1.
  rewrite Ht at 2. rewrite split_from_trailing; [reflexivity |].
  now apply Forall_rev.
Qed.

Lemma split_from_word (s cur : pystr) :
  cur <> [] -> exists rest, split_from cur s = (rev cur ++ word_prefix s) :: rest.
Proof.
  revert cur. induction s as [|c s IH]; intros cur Hcur.
  - destruct cur; [now destruct Hcur |]. cbn [split_from word_prefix].
    rewrite app_nil_r. now eexists.
  - cbn [split_from word_prefix]. destruct (is_space c).
    + destruct cur; [now destruct Hcur |]. rewrite app_nil_r. now eexists.
    + destruct (IH (c :: cur)) as [rest Hrest]; [discriminate |].
      exists rest. rewrite Hrest. cbn [rev]. now rewrite <- app_assoc.
Qed.

Lemma word_prefix_no_space (s : pystr) : Forall (fun c => is_space c = false) (word_prefix s).
Proof.
  induction s as [|c s IH]; [constructor |]. cbn [word_prefix].
  destruct (is_space c) eqn:Hc; [constructor | now constructor].
Qed.

Lemma has_token_lstrip_head (s : pystr) :
  has_token s -> exists c rest, lstrip s = c :: rest /\ is_space c = false.
Proof.
  intros Hs. apply has_token_lstrip in Hs as (x & Hin & _).
  destruct (lstrip s) as [|c rest] eqn:Hl; [destruct Hin |].
  exists c, rest. split; [reflexivity | now apply (lstrip_head s c rest)].
Qed.

(** X13: for a message with a character that is not whitespace the
    player name is returned, and it is the first word of the message: the
    characters after the leading whitespace up to the next whitespace.  It
    is not empty and holds no whitespace. *)
Theorem extract_player_name_first_word (s : pystr) :
  has_token s ->
  extract_player_name (PStr s) = Ok (word_prefix (lstrip s)) /\
  word_prefix (lstrip s) <> [] /\
  Forall (fun c => is_space c = false) (word_prefix (lstrip s)).
Proof.
  intros Hs. destruct (has_token_lstrip_head s Hs) as (c & rest & Hl & Hc).
  split; [| split; [| apply word_prefix_no_space]].
  - unfold extract_player_name. destruct s as [|x s]; [destruct Hs as (? & [] & _) |].
    cbn [truthy]. rewrite split_strip. unfold split.
    destruct (lstrip_split (x :: s)) as (sp & Hsp & Hdecomp).
    rewrite Hdecomp at 1. rewrite split_from_leading by exact Hsp.
    rewrite Hl. cbn [split_from]. rewrite Hc.
    destruct (split_from_word rest [c]) as [tail Htail]; [discriminate |].
    rewrite Htail. cbn [rev app word_prefix]. now rewrite Hc.
  - rewrite Hl. cbn [word_prefix]. now rewrite Hc.
Qed.

End WordFacts.

Lemma extract_player_name_first_word_witness :
  Main.extract_player_name (PStr (u "  Steve 100 "))
  = Ok (word_prefix (lstrip (u "  Steve 100 "))) /\
  word_prefix (lstrip (u "  Steve 100 ")) <> [] /\
  Forall (fun c => is_space c = false) (word_prefix (lstrip (u "  Steve 100 "))).
Proof.
  apply (extract_player_name_first_word (u "  Steve 100 ")).
  exists 83%N. split; [vm_compute; tauto | reflexivity].
Defined.

Section MessageProperties.
Context `{Builtins}.
Import Main.

(** X14: a message that is absent or falsy ([null], [0], [false], the
    empty string, list or object) gives the no-player-name error result
    without the amount or the currency being looked at and without an
    RCON session; the row stored for it carries that result. *)
Theorem process_new_donation_falsy_message (config : Config) (env : Env)
    (d : gmap pystr pyval) (w : World) :
  truthy (dict_get d (u "message") (PStr [])) = false ->
  let result := DonationResult Error (u "Не указано имя игрока в сообщении") None 0 in
  exists w',
    process_new_donation config env (PDict d) w = (Ok result, w') /\
    rcon_sessions w' = rcon_sessions w /\
    (storage env (donation_record (PDict d) result) = None ->
     webhooks w' = webhooks w ++ [donation_record (PDict d) result]).
Proof.
  intros Hfalsy result. rewrite process_new_donation_split, donation_result_dict. cbv zeta.
  unfold extract_player_name. rewrite Hfalsy. cbn [truthy negb].
  unfold bind, log_error, ret. rewrite save_best_effort_total. cbn [snd].
  eexists. split; [reflexivity |]. fold result.
  destruct (storage env (donation_record (PDict d) result)); cbn [rcon_sessions webhooks];
    (split; [reflexivity |]); intros Hstored; [discriminate | reflexivity].
Qed.

(** X15: a message that is truthy and not a string (a number, [true], a
    list, an object) makes [process_new_donation] raise [AttributeError]
    before the conversion: no session is opened, nothing is stored and
    nothing is logged. *)
Theorem process_new_donation_message_not_a_string (config : Config) (env : Env)
    (d : gmap pystr pyval) (w : World) :
  truthy (dict_get d (u "message") (PStr [])) = true ->
  (forall s, dict_get d (u "message") (PStr []) <> PStr s) ->
  process_new_donation config env (PDict d) w = (Raise (mkExn AttributeError []), w).
Proof.
  intros Htruthy Hstr. rewrite process_new_donation_split, donation_result_dict. cbv zeta.
  unfold extract_player_name. rewrite Htruthy.
  destruct (dict_get d (u "message") (PStr [])) as [| | | | s | |]; try reflexivity.
  now destruct (Hstr s).
Qed.

End MessageProperties.

Lemma process_new_donation_falsy_message_witness :
  exists w',
    Main.process_new_donation (H := TestEnv.builtins) TestEnv.config
      (mkEnv TestEnv.server_up TestEnv.storage_up)
      (PDict (list_to_map [ (u "message", PNone); (u "amount", PStr (u "ten")) ]))
      TestEnv.world0
    = (Ok (Main.DonationResult Error (u "Не указано имя игрока в сообщении") None 0), w') /\
    rcon_sessions w' = rcon_sessions TestEnv.world0.
Proof.
  destruct (process_new_donation_falsy_message (H := TestEnv.builtins) TestEnv.config
              (mkEnv TestEnv.server_up TestEnv.storage_up)
              (list_to_map [ (u "message", PNone); (u "amount", PStr (u "ten")) ])
              TestEnv.world0)
    as (w' & Hrun & Hsessions & _).
  - vm_compute. reflexivity.
  - now exists w'.
Defined.

Lemma process_new_donation_message_not_a_string_witness :
  Main.process_new_donation (H := TestEnv.builtins) TestEnv.config
    (mkEnv TestEnv.server_up TestEnv.storage_up)
    (PDict (list_to_map [ (u "message", PInt 42); (u "amount", PInt 100) ]))
    TestEnv.world0
  = (Raise (mkExn AttributeError []), TestEnv.world0).
Proof.
  apply (process_new_donation_message_not_a_string (H := TestEnv.builtins) TestEnv.config
           (mkEnv TestEnv.server_up TestEnv.storage_up)
           (list_to_map [ (u "message", PInt 42); (u "amount", PInt 100) ])
           TestEnv.world0).
  - vm_compute. reflexivity.
  - intros s. vm_compute. discriminate.
Defined.

(** ** Conversion and the sign of the amount *)

Section ConversionProperties.
Context `{Builtins}.
Import Main.

Lemma int_mul_float_zero (f : pyfloat) (g : Z) :
  match int_mul_float 0 f with
  | Ok product => py_int product = Ok g -> g = 0
  | Raise _ => True
  end.
Proof.
  unfold int_mul_float. change (float_of_int 0) with (Ok (S754_zero false) : result pyfloat).
  cbn [py_int]. unfold float_mul.
  destruct f as [s | s | | s m e]; cbn [SFmul int_of_float]; try discriminate;
    now intros [= <-].
Qed.

(** No units for no money, at any rate, when the conversion returns. *)
Lemma convert_zero_amount (config : Config) (c : pystr) (g : Z) (w : World) :
  fst (convert_to_game_currency config (PInt 0) (PStr c) w) = Ok g -> g = 0.
Proof.
  destruct (num_is_zero (rate_of config c)) eqn:Hz.
  - rewrite convert_unknown by exact Hz. now intros [= <-].
  - rewrite convert_known by exact Hz. cbn [fst].
    destruct (rate_of config c) as [r | f]; cbn [py_mul py_int].
    + change (0 * r) with 0. destruct (int_truediv_100 0); [| discriminate].
      destruct (int_str 0); [now intros [= <-] | discriminate].
    + pose proof (int_mul_float_zero f) as Hzero.
      destruct (int_mul_float 0 f) as [product | e]; [| discriminate].
      destruct (py_int product) as [g' | e]; [| discriminate].
      specialize (Hzero g' eq_refl) as ->.
      destruct (int_truediv_100 0); [| discriminate].
      destruct (int_str 0); [now intros [= <-] | discriminate].
Qed.

(** X18: the conversion truncates towards zero, and the float product and
    the division round to nearest, so it is odd: when the conversion of
    [a] returns [g], the conversion of [-a] returns [-g], at every rate of
    the table; and when the conversion of [a] raises (an amount beyond the
    float range, a product that is infinite or not a number), the
    conversion of [-a] raises the same exception. *)
Theorem convert_to_game_currency_odd (config : Config) (a : Z) (c : pystr) (w : World) :
  match fst (convert_to_game_currency config (PInt a) (PStr c) w) with
  | Ok g => fst (convert_to_game_currency config (PInt (- a)) (PStr c) w) = Ok (- g)
  | Raise e => fst (convert_to_game_currency config (PInt (- a)) (PStr c) w) = Raise e
  end.
Proof.
  destruct (Z.eqb_spec a 0) as [-> | Ha].
  { change (- 0) with 0.
    destruct (fst (convert_to_game_currency config (PInt 0) (PStr c) w)) as [g | e] eqn:H0;
      [| reflexivity].
    now rewrite (convert_zero_amount config c g w H0). }
  destruct (num_is_zero (rate_of config c)) eqn:Hz.
  - rewrite !convert_unknown by exact Hz. reflexivity.
  - rewrite !convert_known by exact Hz. cbn [fst].
    rewrite (int_truediv_100_opp a).
    destruct (rate_of config c) as [r | f]; cbn [py_mul py_int].
    + rewrite Z.mul_opp_l, int_str_opp.
      destruct (int_truediv_100 a); [| reflexivity]. now destruct (int_str (a * r)).
    + unfold int_mul_float. rewrite float_of_int_opp.
      destruct (float_of_int a) as [x | e]; [| reflexivity].
      rewrite (proj2 (Z.eqb_neq a 0) Ha). cbn [py_int].
      rewrite float_mul_opp, int_of_float_opp.
      destruct (int_of_float (float_mul x f)) as [g | e]; [| reflexivity].
      rewrite int_str_opp.
      destruct (int_truediv_100 a); [| reflexivity]. now destruct (int_str g).
Qed.

End ConversionProperties.

(** ** The logger *)

Section LoggerFacts.
Variable strftime : nat -> pystr.

Lemma perform_debug_mode (c : Logger.call) (st : Logger.t) :
  Logger.debug_mode (Logger.perform strftime c st) = Logger.debug_mode st.
Proof.
  destruct c; cbn; [unfold Logger.debug; destruct (Logger.debug_mode st) eqn:Hd |..];
    cbn; auto.
Qed.

Lemma perform_silent_debug (m : pystr) (st : Logger.t) :
  Logger.debug_mode st = false -> Logger.perform strftime (Logger.Debug m) st = st.
Proof. intros Hoff. cbn. unfold Logger.debug. now rewrite Hoff. Qed.

Lemma perform_all_cons (c : Logger.call) (calls : list Logger.call) (st : Logger.t) :
  Logger.perform_all strftime (c :: calls) st
  = Logger.perform_all strftime calls (Logger.perform strftime c st).
Proof. reflexivity. Qed.

(** X19: with debug mode off, calls of [debug] leave no trace: a run of
    logger calls ends in the same state (console output, the three files
    and the clock) as the run without its [debug] calls. *)
Theorem logger_debug_calls_invisible (calls : list Logger.call) (st : Logger.t) :
  Logger.debug_mode st = false ->
  Logger.perform_all strftime calls st
  = Logger.perform_all strftime (List.filter (fun c => negb (is_debug c)) calls) st.
Proof.
  revert st. induction calls as [|c calls IH]; intros st Hoff; [reflexivity |].
  rewrite perform_all_cons. destruct c as [m | m | m | m]; cbn [List.filter is_debug negb].
  - rewrite perform_silent_debug by exact Hoff. now apply IH.
  - rewrite perform_all_cons. apply IH. now rewrite perform_debug_mode.
  - rewrite perform_all_cons. apply IH. now rewrite perform_debug_mode.
  - rewrite perform_all_cons. apply IH. now rewrite perform_debug_mode.
Qed.

Lemma perform_lines (c : Logger.call) (st : Logger.t) :
  let st' := Logger.perform strftime c st in
  map snd (Logger.info_log st') = map snd (Logger.info_log st) ++ info_lines c /\
  map snd (Logger.error_log st') = map snd (Logger.error_log st) ++ error_lines c /\
  map snd (Logger.debug_log st')
  = map snd (Logger.debug_log st) ++ (if Logger.debug_mode st then debug_lines c else []).
Proof.
  destruct c as [m | m | m | m]; cbn; unfold Logger.debug;
    destruct (Logger.debug_mode st); cbn; rewrite ?map_app, ?app_nil_r; cbn; auto.
Qed.

(** X20: the three files are journals of the calls.  After a run of
    calls, [info.log] has gained one line per [info], [error] and
    [warning] call, in call order, the last two prefixed with [ERROR: ]
    and [WARNING: ]; [error.log] has gained exactly the messages of the
    [error] calls; [debug.log] has gained the messages of the [debug]
    calls in debug mode and nothing otherwise. *)
Theorem logger_files_journal (calls : list Logger.call) (st : Logger.t) :
  let st' := Logger.perform_all strftime calls st in
  map snd (Logger.info_log st')
  = map snd (Logger.info_log st) ++ flat_map info_lines calls /\
  map snd (Logger.error_log st')
  = map snd (Logger.error_log st) ++ flat_map error_lines calls /\
  map snd (Logger.debug_log st')
  = map snd (Logger.debug_log st)
    ++ (if Logger.debug_mode st then flat_map debug_lines calls else []).
Proof.
  revert st. induction calls as [|c calls IH]; intros st.
  - cbn. destruct (Logger.debug_mode st); rewrite !app_nil_r; auto.
  - cbv zeta. rewrite perform_all_cons.
    destruct (IH (Logger.perform strftime c st)) as (Hi & He & Hd).
    destruct (perform_lines c st) as (Hi1 & He1 & Hd1). cbv zeta in *.
    rewrite Hi, He, Hd, Hi1, He1, Hd1, perform_debug_mode. cbn [flat_map].
    rewrite <- !app_assoc. repeat split.
    destruct (Logger.debug_mode st); [reflexivity | now rewrite !app_nil_r].
Qed.

End LoggerFacts.

Lemma logger_debug_calls_invisible_witness :
  Logger.perform_all TestEnv.ticks
    [Logger.Debug (u "body read"); Logger.Error (u "rejected"); Logger.Debug (u "done")]
    (TestEnv.logger0 false)
  = Logger.perform_all TestEnv.ticks
      (List.filter (fun c => negb (is_debug c))
         [Logger.Debug (u "body read"); Logger.Error (u "rejected"); Logger.Debug (u "done")])
      (TestEnv.logger0 false).
Proof.
  apply (logger_debug_calls_invisible TestEnv.ticks). reflexivity.
Defined.

(** ** Start-up: the configuration *)

Section ConfigFacts.
Context `{Builtins}.
Import ConfigLoader.

Lemma py_getitem_dict (v : pyval) (key : pystr) (x : pyval) :
  py_getitem v key = Returns x <-> exists d, v = PDict d /\ d !! key = Some x.
Proof.
  split.
  - intros Hget. destruct v; try discriminate. cbn in Hget.
    destruct (d !! key) eqn:Hd; [| discriminate]. injection Hget as ->. eauto.
  - intros (d & -> & Hd). cbn. now rewrite Hd.
Qed.

(** A mapping whose variable is set needs a dict to work on. *)
Lemma apply_env_variable_dict (env : gmap pystr pystr) (config config' : pyval)
    (var section key env_value : pystr) :
  env !! var = Some env_value ->
  apply_env_variable env config (var, (section, key)) = Returns config' ->
  exists d, config = PDict d.
Proof.
  intros Hvar. unfold apply_env_variable. rewrite Hvar.
  destruct config as [| | | | s | l | d]; cbn [py_in and_then]; try discriminate.
  - destruct (contains section s); cbn [py_setitem py_getitem and_then]; discriminate.
  - destruct (existsb _ l); cbn [py_setitem py_getitem and_then]; discriminate.
  - eauto.
Qed.

(** One mapping whose variable is set stores the converted value. *)
Lemma apply_env_variable_sets (env : gmap pystr pystr) (config config' : pyval)
    (var section key env_value : pystr) :
  env !! var = Some env_value ->
  apply_env_variable env config (var, (section, key)) = Returns config' ->
  exists value, env_value_for key env_value = Returns value /\
                entry config' section key = Some value.
Proof.
  intros Hvar Hrun.
  destruct (apply_env_variable_dict _ _ _ _ _ _ _ Hvar Hrun) as [d ->].
  unfold apply_env_variable in Hrun. rewrite Hvar in Hrun. cbn [py_in and_then] in Hrun.
  destruct (d !! section) as [current|] eqn:Hsec;
    cbn [py_setitem py_getitem and_then] in Hrun.
  - rewrite Hsec in Hrun. cbn [and_then] in Hrun.
    destruct (env_value_for key env_value) as [value | e]; [| discriminate].
    cbn [and_then] in Hrun. destruct current as [| | | | | |c]; try discriminate.
    cbn [py_setitem and_then] in Hrun. injection Hrun as <-.
    exists value. split; [reflexivity |]. cbn [entry]. now rewrite !lookup_insert_eq.
  - rewrite lookup_insert_eq in Hrun. cbn [and_then] in Hrun.
    destruct (env_value_for key env_value) as [value | e]; [| discriminate].
    cbn [and_then py_setitem] in Hrun. injection Hrun as <-.
    exists value. split; [reflexivity |]. cbn [entry]. now rewrite !lookup_insert_eq.
Qed.

(** It leaves every other entry as it was. *)
Lemma apply_env_variable_keeps (env : gmap pystr pystr) (config config' : pyval)
    (var section key section' key' : pystr) (x : pyval) :
  apply_env_variable env config (var, (section, key)) = Returns config' ->
  (section', key') <> (section, key) ->
  entry config section' key' = Some x -> entry config' section' key' = Some x.
Proof.
  intros Hrun Hne Hentry.
  destruct (env !! var) as [env_value|] eqn:Hvar.
  2: { unfold apply_env_variable in Hrun. rewrite Hvar in Hrun. now injection Hrun as <-. }
  destruct (apply_env_variable_dict _ _ _ _ _ _ _ Hvar Hrun) as [d ->].
  unfold apply_env_variable in Hrun. rewrite Hvar in Hrun. cbn [py_in and_then] in Hrun.
  cbn [entry] in Hentry.
  destruct (d !! section) as [current|] eqn:Hsec;
    cbn [py_setitem py_getitem and_then] in Hrun.
  - rewrite Hsec in Hrun. cbn [and_then] in Hrun.
    destruct (env_value_for key env_value) as [value | e]; [| discriminate].
    cbn [and_then] in Hrun. destruct current as [| | | | | |c]; try discriminate.
    cbn [py_setitem and_then] in Hrun. injection Hrun as <-. cbn [entry].
    destruct (decide (section' = section)) as [-> | Hs].
    + rewrite lookup_insert_eq. rewrite Hsec in Hentry.
      rewrite lookup_insert_ne; [exact Hentry | congruence].
    + now rewrite lookup_insert_ne by congruence.
  - rewrite lookup_insert_eq in Hrun. cbn [and_then] in Hrun.
    destruct (env_value_for key env_value) as [value | e]; [| discriminate].
    cbn [and_then py_setitem] in Hrun. injection Hrun as <-. cbn [entry].
    destruct (decide (section' = section)) as [-> | Hs].
    + now rewrite Hsec in Hentry.
    + rewrite insert_insert_eq. now rewrite lookup_insert_ne by congruence.
Qed.

Lemma apply_env_variables_keeps (mappings : list (pystr * (pystr * pystr)))
    (env : gmap pystr pystr) (config config' : pyval) (section key : pystr) (x : pyval) :
  apply_env_variables_from mappings env config = Returns config' ->
  (forall var, In (var, (section, key)) mappings -> env !! var = None) ->
  entry config section key = Some x -> entry config' section key = Some x.
Proof.
  revert config. induction mappings as [|[var [sec k]] rest IH]; intros config Hrun Hunset Hx.
  - now injection Hrun as <-.
  - cbn [apply_env_variables_from] in Hrun.
    destruct (apply_env_variable env config (var, (sec, k))) as [config1 | e] eqn:Hone;
      [| discriminate].
    cbn [and_then] in Hrun. apply (IH config1 Hrun).
    + intros v Hin. apply Hunset. now right.
    + destruct (decide ((section, key) = (sec, k))) as [[= -> ->] | Hne].
      * unfold apply_env_variable in Hone. rewrite (Hunset var) in Hone by now left.
        now injection Hone as <-.
      * now apply (apply_env_variable_keeps env config config1 var sec k).
Qed.

(** After the loop every mapped variable that is set has its converted
    value in place. *)
Lemma apply_env_variables_sets (mappings : list (pystr * (pystr * pystr)))
    (env : gmap pystr pystr) (config config' : pyval)
    (var section key env_value : pystr) :
  NoDup (map snd mappings) ->
  apply_env_variables_from mappings env config = Returns config' ->
  In (var, (section, key)) mappings -> env !! var = Some env_value ->
  exists value, env_value_for key env_value = Returns value /\
                entry config' section key = Some value.
Proof.
  revert config. induction mappings as [|[v [sec k]] rest IH];
    intros config Hnodup Hrun Hin Hvar; [destruct Hin |].
  cbn [map snd] in Hnodup. apply NoDup_cons in Hnodup as [Hfresh Hnodup].
  cbn [apply_env_variables_from] in Hrun.
  destruct (apply_env_variable env config (v, (sec, k))) as [config1 | e] eqn:Hone;
    [| discriminate].
  cbn [and_then] in Hrun. destruct Hin as [[= -> -> ->] | Hin].
  - destruct (apply_env_variable_sets env config config1 var section key env_value Hvar Hone)
      as (value & Hvalue & Hentry).
    exists value. split; [exact Hvalue |].
    apply (apply_env_variables_keeps rest env config1 config' section key value Hrun);
      [| exact Hentry].
    intros v' Hin'. exfalso. apply Hfresh. apply list_elem_of_In.
    change (section, key) with (snd (v', (section, key))). now apply in_map.
  - now apply (IH config1).
Qed.

Lemma env_mappings_targets : NoDup (map snd env_mappings).
Proof. apply (bool_decide_unpack (NoDup (map snd env_mappings))). vm_compute. exact I. Qed.

Lemma require_fields_present (fields : list pystr) (v : pyval) (prefix : pystr) :
  require_fields fields v prefix = Returns tt ->
  forall field, In field fields -> py_in field v = Returns true.
Proof.
  induction fields as [|f rest IH]; intros Hrun field Hin; [destruct Hin |].
  cbn [require_fields] in Hrun.
  destruct (py_in f v) as [[|] | e] eqn:Hf; try discriminate. cbn [and_then] in Hrun.
  destruct Hin as [<- | Hin]; [exact Hf | now apply IH].
Qed.

(** Everything a returning [load_config] has checked. *)
Lemma load_config_returns (path : pystr) (document : option pyval)
    (env : gmap pystr pystr) (config : pyval) :
  load_config path document env = Returns config ->
  exists file tribute api_key rcon_config command rcon_password,
    document = Some file /\
    _apply_env_variables env file = Returns config /\
    (forall field,
       In field [u "server"; u "tribute"; u "currency_rates"; u "tribute_database";
                 u "minecraft_rcon"] -> py_in field config = Returns true) /\
    py_getitem config (u "tribute") = Returns tribute /\
    py_getitem tribute (u "api_key") = Returns api_key /\
    py_in_tuple api_key [Some (u "YOUR_API_KEY_HERE"); Some []; None]
      && env_unset env (u "TRIBUTE_API_KEY") = false /\
    py_getitem config (u "minecraft_rcon") = Returns rcon_config /\
    (forall field, In field [u "host"; u "port"; u "password"; u "command"] ->
       py_in field rcon_config = Returns true) /\
    py_getitem rcon_config (u "command") = Returns command /\
    py_in (u "%player_name%") command = Returns true /\
    py_in (u "%amount%") command = Returns true /\
    py_getitem rcon_config (u "password") = Returns rcon_password /\
    py_in_tuple rcon_password
      [Some (u "your_rcon_password"); Some (u "YOUR_RCON_PASSWORD"); Some []; None]
      && env_unset env (u "RCON_PASSWORD") = false.
Proof.
  unfold load_config. destruct document as [file|]; [| discriminate].
  destruct (_apply_env_variables env file) as [config1 | e] eqn:Henv; [| discriminate].
  cbn [and_then].
  destruct (require_fields _ config1 _) as [[] | e] eqn:Hfields; [| discriminate].
  cbn [and_then].
  destruct (py_getitem config1 (u "tribute")) as [tribute | e] eqn:Htribute;
    [| discriminate]. cbn [and_then].
  destruct (py_getitem tribute (u "api_key")) as [api_key | e] eqn:Hkey;
    [| discriminate]. cbn [and_then].
  destruct (py_in_tuple api_key _ && env_unset env (u "TRIBUTE_API_KEY")) eqn:Hsecret;
    [discriminate |].
  destruct (py_getitem config1 (u "minecraft_rcon")) as [rcon_config | e] eqn:Hrcon;
    [| discriminate]. cbn [and_then].
  destruct (require_fields _ rcon_config _) as [[] | e] eqn:Hrfields; [| discriminate].
  cbn [and_then].
  destruct (py_getitem rcon_config (u "command")) as [command | e] eqn:Hcommand;
    [| discriminate]. cbn [and_then].
  destruct (py_in (u "%player_name%") command) as [[|] | e] eqn:Hplayer;
    try discriminate; cbn [and_then].
  destruct (py_in (u "%amount%") command) as [[|] | e] eqn:Hamount;
    try discriminate; cbn [and_then andb negb].
  destruct (py_getitem rcon_config (u "password")) as [rcon_password | e] eqn:Hpassword;
    [| discriminate]. cbn [and_then].
  destruct (py_in_tuple rcon_password _ && env_unset env (u "RCON_PASSWORD")) eqn:Hpw;
    [discriminate |].
  intros [= <-]. exists file, tribute, api_key, rcon_config, command, rcon_password.
  repeat split; try assumption; try reflexivity.
  - now apply (require_fields_present _ _ _ Hfields).
  - now apply (require_fields_present _ _ _ Hrfields).
Qed.

End ConfigFacts.

Section ConfigProperties.
Context `{Builtins}.
Import ConfigLoader.

Lemma entry_getitem (config : pyval) (section key : pystr) (x : pyval) :
  entry config section key = Some x <->
  exists current, py_getitem config section = Returns current /\
                  py_getitem current key = Returns x.
Proof.
  split.
  - destruct config as [| | | | | | d]; try discriminate. cbn [entry py_getitem].
    destruct (d !! section) as [[| | | | | | c]|]; try discriminate.
    intros Hx. exists (PDict c). split; [reflexivity |]. cbn. now rewrite Hx.
  - intros (current & [d [-> Hd]]%py_getitem_dict & [c [-> Hc]]%py_getitem_dict).
    cbn [entry]. now rewrite Hd.
Qed.

Lemma py_in_key (key : pystr) (d : gmap pystr pyval) :
  py_in key (PDict d) = Returns true -> is_Some (d !! key).
Proof. cbn. destruct (d !! key); [eauto | discriminate]. Qed.

Lemma apply_env_variable_agree (env env' : gmap pystr pystr) (config : pyval)
    (mapping : pystr * (pystr * pystr)) :
  env !! mapping.1 = env' !! mapping.1 ->
  apply_env_variable env config mapping = apply_env_variable env' config mapping.
Proof. destruct mapping as [var [section key]]. cbn [fst apply_env_variable]. now intros ->. Qed.

Lemma apply_env_variables_agree (mappings : list (pystr * (pystr * pystr)))
    (env env' : gmap pystr pystr) (config : pyval) :
  (forall mapping, In mapping mappings -> env !! mapping.1 = env' !! mapping.1) ->
  apply_env_variables_from mappings env config
  = apply_env_variables_from mappings env' config.
Proof.
  revert config. induction mappings as [|mapping rest IH]; intros config Hagree;
    [reflexivity |].
  cbn [apply_env_variables_from].
  rewrite (apply_env_variable_agree env env' config mapping) by (apply Hagree; now left).
  destruct (apply_env_variable env' config mapping) as [config1 | e]; [| reflexivity].
  cbn [and_then]. apply IH. intros m Hm. apply Hagree. now right.
Qed.

Lemma api_key_mapping : In (u "TRIBUTE_API_KEY", (u "tribute", u "api_key")) env_mappings.
Proof. do 3 right. now left. Qed.

Lemma password_mapping :
  In (u "RCON_PASSWORD", (u "minecraft_rcon", u "password")) env_mappings.
Proof. do 6 right. now left. Qed.

Lemma py_in_tuple_str (s : pystr) (tuple : list (option pystr)) :
  py_in_tuple (PStr s) tuple = true -> In (Some s) tuple.
Proof.
  unfold py_in_tuple. induction tuple as [|[x|] tuple IH]; cbn [existsb]; [discriminate | |].
  - intros [Heq | Hrest]%orb_prop; [left | right; now apply IH].
    unfold pystr_eqb in Heq. apply bool_decide_eq_true_1 in Heq. now subst.
  - intros Hrest. right. now apply IH.
Qed.

Lemma env_unset_false (env : gmap pystr pystr) (name : pystr) :
  env_unset env name = false -> exists c rest, env !! name = Some (c :: rest).
Proof. unfold env_unset. destruct (env !! name) as [[|c rest]|]; try discriminate. eauto. Qed.

(** The secret of a returned configuration, when its variable is set. *)
Lemma load_config_secret_from_env (path : pystr) (document : option pyval)
    (env : gmap pystr pystr) (config : pyval) (var section key env_value : pystr) :
  load_config path document env = Returns config ->
  In (var, (section, key)) env_mappings ->
  key <> u "port" -> key <> u "debug" ->
  env !! var = Some env_value ->
  entry config section key = Some (PStr env_value).
Proof.
  intros Hload Hin Hport Hdebug Hvar.
  destruct (load_config_returns _ _ _ _ Hload) as (file & _ & _ & _ & _ & _ & _ & Henv & _).
  destruct (apply_env_variables_sets env_mappings env file config var section key env_value
              env_mappings_targets Henv Hin Hvar) as (value & Hvalue & Hentry).
  unfold env_value_for, pystr_eqb in Hvalue.
  rewrite !bool_decide_eq_false_2 in Hvalue by assumption. now injection Hvalue as <-.
Qed.

(** X21: a configuration that [load_config] returns holds the five
    required sections, an API key, and the four RCON settings; the
    operator [in] finds both placeholders in the command, and when the
    command is a string both are substrings of it. *)
Theorem load_config_validates (path : pystr) (document : option pyval)
    (env : gmap pystr pystr) (config : pyval) :
  load_config path document env = Returns config ->
  (forall section,
     In section [u "server"; u "tribute"; u "currency_rates"; u "tribute_database";
                 u "minecraft_rcon"] ->
     exists v, py_getitem config section = Returns v) /\
  is_Some (entry config (u "tribute") (u "api_key")) /\
  (forall key, In key [u "host"; u "port"; u "password"; u "command"] ->
     is_Some (entry config (u "minecraft_rcon") key)) /\
  exists command,
    entry config (u "minecraft_rcon") (u "command") = Some command /\
    py_in (u "%player_name%") command = Returns true /\
    py_in (u "%amount%") command = Returns true /\
    (forall template, command = PStr template ->
       substring_of (u "%player_name%") template /\ substring_of (u "%amount%") template).
Proof.
  intros Hload.
  destruct (load_config_returns _ _ _ _ Hload)
    as (file & tribute & api_key & rcon_config & command & rcon_password & _ & _
        & Hsections & Htribute & Hkey & _ & Hrcon & Hfields & Hcommand & Hplayer
        & Hamount & _ & _).
  pose proof Htribute as [d [-> Hd]]%py_getitem_dict.
  pose proof Hrcon as [d' [[= <-] Hr]]%py_getitem_dict.
  pose proof Hcommand as [rcon [-> Hc]]%py_getitem_dict.
  split; [| split; [| split]].
  - intros section Hin. destruct (py_in_key section d (Hsections section Hin)) as [v Hv].
    exists v. cbn. now rewrite Hv.
  - exists api_key. apply entry_getitem. eauto.
  - intros key Hin. destruct (py_in_key key rcon (Hfields key Hin)) as [v Hv].
    exists v. cbn [entry]. now rewrite Hr.
  - exists command. split; [cbn [entry]; now rewrite Hr |].
    split; [exact Hplayer |]. split; [exact Hamount |].
    intros template ->. cbn [py_in] in Hplayer, Hamount.
    injection Hplayer as Hplayer. injection Hamount as Hamount.
    split; now apply contains_spec.
Qed.


(** X23: the environment has priority over the file: when one of the
    eight mapped variables is set, a returned configuration holds at the
    variable's place the converted value of the variable (the integer for
    a port, the flag for [debug], the string itself otherwise), whatever
    the file said. *)
Theorem load_config_environment_wins (path : pystr) (document : option pyval)
    (env : gmap pystr pystr) (config : pyval) (var section key env_value : pystr) :
  load_config path document env = Returns config ->
  In (var, (section, key)) env_mappings ->
  env !! var = Some env_value ->
  exists value, env_value_for key env_value = Returns value /\
                entry config section key = Some value.
Proof.
  intros Hload Hin Hvar.
  destruct (load_config_returns _ _ _ _ Hload) as (file & _ & _ & _ & _ & _ & _ & Henv & _).
  exact (apply_env_variables_sets env_mappings env file config var section key env_value
           env_mappings_targets Henv Hin Hvar).
Qed.

(** X24: the entries the environment does not name are those of the
    file: an entry of the document whose place has no set variable (every
    entry outside the eight mapped places among them) is in the returned
    configuration unchanged. *)
Theorem load_config_keeps_file_value (path : pystr) (file : pyval)
    (env : gmap pystr pystr) (config : pyval) (section key : pystr) (x : pyval) :
  load_config path (Some file) env = Returns config ->
  (forall var, In (var, (section, key)) env_mappings -> env !! var = None) ->
  entry file section key = Some x ->
  entry config section key = Some x.
Proof.
  intros Hload Hunset Hentry.
  destruct (load_config_returns _ _ _ _ Hload)
    as (file' & _ & _ & _ & _ & _ & [= <-] & Henv & _).
  exact (apply_env_variables_keeps env_mappings env file config section key x
           Henv Hunset Hentry).
Qed.

(** X25: [load_config] reads the environment through the eight mapped
    variables only: two environments that agree on them give the same
    outcome, the same configuration or the same exception. *)
Theorem load_config_reads_mapped_variables_only (path : pystr) (document : option pyval)
    (env env' : gmap pystr pystr) :
  (forall mapping, In mapping env_mappings -> env !! mapping.1 = env' !! mapping.1) ->
  load_config path document env = load_config path document env'.
Proof.
  intros Hagree. unfold load_config, _apply_env_variables, env_unset.
  destruct document as [file|]; [| reflexivity].
  rewrite (apply_env_variables_agree env_mappings env env' file Hagree).
  pose proof (Hagree _ api_key_mapping) as Hkey.
  pose proof (Hagree _ password_mapping) as Hpassword.
  cbn [fst] in Hkey, Hpassword. now rewrite Hkey, Hpassword.
Qed.

(** X26: an API key or an RCON password set to the empty string in the
    environment replaces the value of the file and is then refused:
    [load_config] raises, whatever the file holds. *)
Theorem load_config_rejects_empty_secret (path : pystr) (document : option pyval)
    (env : gmap pystr pystr) :
  env !! u "TRIBUTE_API_KEY" = Some [] \/ env !! u "RCON_PASSWORD" = Some [] ->
  exists e, load_config path document env = Raises e.
Proof.
  intros Hempty. destruct (load_config path document env) as [config | e] eqn:Hload;
    [exfalso | now exists e].
  destruct (load_config_returns _ _ _ _ Hload)
    as (file & tribute & api_key & rcon_config & command & rcon_password & _ & _
        & _ & Htribute & Hkey & Hkey_ok & Hrcon & _ & _ & _ & _ & Hpassword & Hpassword_ok).
  destruct Hempty as [Hvar | Hvar].
  - pose proof (load_config_secret_from_env _ _ _ _ _ _ _ _ Hload api_key_mapping
                  ltac:(discriminate) ltac:(discriminate) Hvar) as Hentry.
    apply entry_getitem in Hentry as (current & Hcurrent & Hvalue).
    rewrite Htribute in Hcurrent. injection Hcurrent as <-.
    rewrite Hkey in Hvalue. injection Hvalue as ->.
    unfold env_unset in Hkey_ok. rewrite Hvar in Hkey_ok. discriminate.
  - pose proof (load_config_secret_from_env _ _ _ _ _ _ _ _ Hload password_mapping
                  ltac:(discriminate) ltac:(discriminate) Hvar) as Hentry.
    apply entry_getitem in Hentry as (current & Hcurrent & Hvalue).
    rewrite Hrcon in Hcurrent. injection Hcurrent as <-.
    rewrite Hpassword in Hvalue. injection Hvalue as ->.
    unfold env_unset in Hpassword_ok. rewrite Hvar in Hpassword_ok. discriminate.
Qed.

(** X27: a returned configuration holds a placeholder secret only when
    the environment asked for it: its API key is [YOUR_API_KEY_HERE],
    empty or [None] only if [TRIBUTE_API_KEY] is set to
    [YOUR_API_KEY_HERE], and its RCON password is one of the two default
    passwords, empty or [None] only if [RCON_PASSWORD] is set to that
    default password. *)
Theorem load_config_placeholder_secret (path : pystr) (document : option pyval)
    (env : gmap pystr pystr) (config : pyval) :
  load_config path document env = Returns config ->
  exists api_key password,
    entry config (u "tribute") (u "api_key") = Some api_key /\
    entry config (u "minecraft_rcon") (u "password") = Some password /\
    (py_in_tuple api_key [Some (u "YOUR_API_KEY_HERE"); Some []; None] = true ->
     api_key = PStr (u "YOUR_API_KEY_HERE") /\
     env !! u "TRIBUTE_API_KEY" = Some (u "YOUR_API_KEY_HERE")) /\
    (py_in_tuple password
       [Some (u "your_rcon_password"); Some (u "YOUR_RCON_PASSWORD"); Some []; None] = true ->
     exists default_password,
       In default_password [u "your_rcon_password"; u "YOUR_RCON_PASSWORD"] /\
       password = PStr default_password /\
       env !! u "RCON_PASSWORD" = Some default_password).
Proof.
  intros Hload.
  destruct (load_config_returns _ _ _ _ Hload)
    as (file & tribute & api_key & rcon_config & command & rcon_password & _ & _
        & _ & Htribute & Hkey & Hkey_ok & Hrcon & _ & _ & _ & _ & Hpassword & Hpassword_ok).
  exists api_key, rcon_password.
  split; [apply entry_getitem; eauto |]. split; [apply entry_getitem; eauto |]. split.
  - intros Hplaceholder. rewrite Hplaceholder in Hkey_ok. cbn [andb] in Hkey_ok.
    apply env_unset_false in Hkey_ok as (c & rest & Hvar).
    pose proof (load_config_secret_from_env _ _ _ _ _ _ _ _ Hload api_key_mapping
                  ltac:(discriminate) ltac:(discriminate) Hvar) as Hentry.
    apply entry_getitem in Hentry as (current & Hcurrent & Hvalue).
    rewrite Htribute in Hcurrent. injection Hcurrent as <-.
    rewrite Hkey in Hvalue. injection Hvalue as ->.
    apply py_in_tuple_str in Hplaceholder.
    destruct Hplaceholder as [Heq | [Heq | [Heq | []]]]; try discriminate.
    apply (inj Some) in Heq. rewrite Hvar, <- Heq. now split.
  - intros Hplaceholder. rewrite Hplaceholder in Hpassword_ok. cbn [andb] in Hpassword_ok.
    apply env_unset_false in Hpassword_ok as (c & rest & Hvar).
    pose proof (load_config_secret_from_env _ _ _ _ _ _ _ _ Hload password_mapping
                  ltac:(discriminate) ltac:(discriminate) Hvar) as Hentry.
    apply entry_getitem in Hentry as (current & Hcurrent & Hvalue).
    rewrite Hrcon in Hcurrent. injection Hcurrent as <-.
    rewrite Hpassword in Hvalue. injection Hvalue as ->.
    apply py_in_tuple_str in Hplaceholder.
    exists (c :: rest). rewrite Hvar.
    destruct Hplaceholder as [Heq | [Heq | [Heq | [Heq | []]]]];
      try discriminate; apply (inj Some) in Heq; rewrite <- Heq; (split; [| now split]);
      [now left | right; now left].
Qed.

End ConfigProperties.

Lemma load_config_validates_witness :
  exists command,
    entry TestEnv.loaded (u "minecraft_rcon") (u "command") = Some command /\
    ConfigLoader.py_in (u "%player_name%") command = ConfigLoader.Returns true /\
    ConfigLoader.py_in (u "%amount%") command = ConfigLoader.Returns true.
Proof.
  destruct (load_config_validates (H := TestEnv.builtins) (u "config.yaml")
              (Some TestEnv.document) TestEnv.environment TestEnv.loaded)
    as (_ & _ & _ & command & Hcommand & Hplayer & Hamount & _).
  - vm_compute. reflexivity.
  - now exists command.
Defined.


Lemma load_config_environment_wins_witness :
  exists value,
    ConfigLoader.env_value_for (H := TestEnv.builtins) (u "debug") (u "Yes")
    = ConfigLoader.Returns value /\
    entry TestEnv.loaded (u "server") (u "debug") = Some value.
Proof.
  apply (load_config_environment_wins (H := TestEnv.builtins) (u "config.yaml")
           (Some TestEnv.document) TestEnv.environment TestEnv.loaded (u "SERVER_DEBUG")).
  - vm_compute. reflexivity.
  - do 2 right. now left.
  - vm_compute. reflexivity.
Defined.

Lemma load_config_keeps_file_value_witness :
  entry TestEnv.loaded (u "currency_rates") (u "RUB") = Some (PFloat TestEnv.float_001).
Proof.
  apply (load_config_keeps_file_value (H := TestEnv.builtins) (u "config.yaml")
           TestEnv.document TestEnv.environment TestEnv.loaded).
  - vm_compute. reflexivity.
  - intros var Hin. vm_compute in Hin. exfalso. intuition discriminate.
  - vm_compute. reflexivity.
Defined.

Lemma load_config_reads_mapped_variables_only_witness :
  ConfigLoader.load_config (H := TestEnv.builtins) (u "config.yaml")
    (Some TestEnv.document) TestEnv.environment
  = ConfigLoader.load_config (H := TestEnv.builtins) (u "config.yaml")
      (Some TestEnv.document)
      {[ u "TRIBUTE_API_KEY" := u "secret"; u "SERVER_DEBUG" := u "Yes" ]}.
Proof.
  apply (load_config_reads_mapped_variables_only (H := TestEnv.builtins)).
  intros mapping Hin.
  repeat (destruct Hin as [<- | Hin]; [vm_compute; reflexivity |]). destruct Hin.
Defined.

Lemma load_config_rejects_empty_secret_witness :
  exists e,
    ConfigLoader.load_config (H := TestEnv.builtins) (u "config.yaml")
      (Some TestEnv.loaded) {[ u "RCON_PASSWORD" := [] ]}
    = ConfigLoader.Raises e.
Proof.
  apply (load_config_rejects_empty_secret (H := TestEnv.builtins)).
  right. vm_compute. reflexivity.
Defined.

Lemma load_config_placeholder_secret_witness :
  exists api_key password,
    entry TestEnv.loaded (u "tribute") (u "api_key") = Some api_key /\
    entry TestEnv.loaded (u "minecraft_rcon") (u "password") = Some password.
Proof.
  destruct (load_config_placeholder_secret (H := TestEnv.builtins) (u "config.yaml")
              (Some TestEnv.document) TestEnv.environment TestEnv.loaded)
    as (api_key & password & Hkey & Hpassword & _).
  - vm_compute. reflexivity.
  - now exists api_key, password.
Defined.

(** ** Start-up: the database manager *)

Section DatabaseProperties.
Context `{Builtins} (connect : Database.backend -> ConfigLoader.outcome unit).
Import ConfigLoader Database.

Lemma py_eq_str_true (v : pyval) (s : pystr) : py_eq_str v s = true -> v = PStr s.
Proof.
  destruct v; try discriminate. cbn. unfold pystr_eqb. intros Heq.
  apply bool_decide_eq_true_1 in Heq. now subst.
Qed.

(** One mapping leaves the other top-level sections alone. *)
Lemma apply_env_variable_other_section (env : gmap pystr pystr) (config config' : pyval)
    (var section key other : pystr) :
  apply_env_variable env config (var, (section, key)) = Returns config' ->
  other <> section ->
  py_getitem config' other = py_getitem config other.
Proof.
  intros Hrun Hne. destruct (env !! var) as [env_value|] eqn:Hvar.
  2: { unfold apply_env_variable in Hrun. rewrite Hvar in Hrun. now injection Hrun as <-. }
  destruct (apply_env_variable_dict _ _ _ _ _ _ _ Hvar Hrun) as [d ->].
  unfold apply_env_variable in Hrun. rewrite Hvar in Hrun. cbn [py_in and_then] in Hrun.
  destruct (d !! section) as [current|] eqn:Hsec;
    cbn [py_setitem py_getitem and_then] in Hrun.
  - rewrite Hsec in Hrun. cbn [and_then] in Hrun.
    destruct (env_value_for key env_value) as [value | e]; [| discriminate].
    cbn [and_then] in Hrun. destruct current as [| | | | | |c]; try discriminate.
    cbn [py_setitem and_then] in Hrun. injection Hrun as <-. cbn [py_getitem].
    now rewrite lookup_insert_ne by congruence.
  - rewrite lookup_insert_eq in Hrun. cbn [and_then] in Hrun.
    destruct (env_value_for key env_value) as [value | e]; [| discriminate].
    cbn [and_then py_setitem] in Hrun. injection Hrun as <-. cbn [py_getitem].
    now rewrite !lookup_insert_ne by congruence.
Qed.

Lemma apply_env_variables_other_section (mappings : list (pystr * (pystr * pystr)))
    (env : gmap pystr pystr) (config config' : pyval) (other : pystr) :
  apply_env_variables_from mappings env config = Returns config' ->
  Forall (fun mapping => other <> mapping.2.1) mappings ->
  py_getitem config' other = py_getitem config other.
Proof.
  revert config. induction mappings as [|[var [section key]] rest IH];
    intros config Hrun Hother.
  - now injection Hrun as <-.
  - cbn [apply_env_variables_from] in Hrun.
    destruct (apply_env_variable env config (var, (section, key))) as [config1 | e] eqn:Hone;
      [| discriminate].
    cbn [and_then] in Hrun. apply Forall_cons in Hother as [Hne Hother].
    rewrite (IH config1 Hrun Hother).
    exact (apply_env_variable_other_section env config config1 var section key other Hone Hne).
Qed.

Lemma minecraft_database_unmapped :
  Forall (fun mapping : pystr * (pystr * pystr) => u "minecraft_database" <> mapping.2.1)
    env_mappings.
Proof. repeat constructor; discriminate. Qed.

(** X28: [load_config] does not ask for the [minecraft_database] section
    that the constructor of the database manager reads: when the file is
    a mapping without that section, every configuration [load_config]
    returns for it makes [DatabaseManager.__init__] raise, whatever the
    environment and the database back ends do. *)
Theorem database_init_needs_minecraft_database (path : pystr) (file : pyval)
    (env : gmap pystr pystr) (config : pyval) :
  load_config path (Some file) env = Returns config ->
  py_getitem file (u "minecraft_database") = Raises (KeyError (u "minecraft_database")) ->
  exists e, __init__ connect config = Raises e.
Proof.
  intros Hload Hmissing.
  destruct (load_config_returns _ _ _ _ Hload)
    as (file' & _ & _ & _ & _ & _ & [= <-] & Henv & _).
  pose proof (apply_env_variables_other_section env_mappings env file config
                (u "minecraft_database") Henv minecraft_database_unmapped) as Hsame.
  rewrite Hmissing in Hsame. unfold __init__.
  destruct (_init_tribute_db connect config) as [tribute_db_type | e]; [| now exists e].
  cbn [and_then]. unfold _init_minecraft_db. rewrite Hsame. cbn [and_then]. eauto.
Qed.

(** X29: after [DatabaseManager.__init__] has returned, the two types
    the manager dispatches on are supported ones and are those of the
    configuration: [tribute_db_type] is [sqlite], [mysql] or [mongodb],
    [minecraft_db_type] is [sqlite] or [mysql], and each is the [type]
    entry of its section. *)
Theorem database_init_types (config : pyval) (self : Database.t) :
  __init__ connect config = Returns self ->
  In (tribute_db_type self) [u "sqlite"; u "mysql"; u "mongodb"] /\
  entry config (u "tribute_database") (u "type") = Some (PStr (tribute_db_type self)) /\
  In (minecraft_db_type self) [u "sqlite"; u "mysql"] /\
  entry config (u "minecraft_database") (u "type") = Some (PStr (minecraft_db_type self)).
Proof.
  unfold __init__.
  destruct (_init_tribute_db connect config) as [tribute|e] eqn:Htribute; [| discriminate].
  cbn [and_then].
  destruct (_init_minecraft_db connect config) as [minecraft|e] eqn:Hminecraft;
    [| discriminate].
  cbn [and_then]. intros [= <-]. cbn [tribute_db_type minecraft_db_type].
  assert (Ht : In tribute [u "sqlite"; u "mysql"; u "mongodb"] /\
               entry config (u "tribute_database") (u "type") = Some (PStr tribute)).
  { unfold _init_tribute_db in Htribute.
    destruct (py_getitem config (u "tribute_database")) as [database|e] eqn:Hdatabase;
      [| discriminate]. cbn [and_then] in Htribute.
    destruct (py_getitem database (u "type")) as [db_type|e] eqn:Htype; [| discriminate].
    cbn [and_then] in Htribute.
    assert (Hentry : entry config (u "tribute_database") (u "type") = Some db_type)
      by (apply entry_getitem; eauto).
    destruct (py_eq_str db_type (u "sqlite")) eqn:Hsqlite;
      [| destruct (py_eq_str db_type (u "mysql")) eqn:Hmysql;
         [| destruct (py_eq_str db_type (u "mongodb")) eqn:Hmongodb; [| discriminate]]].
    - apply py_eq_str_true in Hsqlite as ->.
      unfold _init_tribute_sqlite in Htribute. rewrite Hdatabase in Htribute.
      cbn [and_then] in Htribute.
      destruct (py_getitem database (u "sqlite")) as [sqlite|e]; [| discriminate].
      cbn [and_then] in Htribute.
      destruct (py_getitem sqlite (u "path")) as [db_path|e]; [| discriminate].
      cbn [and_then] in Htribute.
      destruct (connect _) as [[]|e]; [| discriminate]. injection Htribute as <-.
      split; [now left | exact Hentry].
    - apply py_eq_str_true in Hmysql as ->.
      unfold _init_tribute_mysql in Htribute. rewrite Hdatabase in Htribute.
      cbn [and_then] in Htribute.
      destruct (py_getitem database (u "mysql")) as [mysql|e]; [| discriminate].
      cbn [and_then] in Htribute.
      destruct (connect _) as [[]|e]; [| discriminate]. injection Htribute as <-.
      split; [right; now left | exact Hentry].
    - apply py_eq_str_true in Hmongodb as ->.
      unfold _init_tribute_mongodb in Htribute. rewrite Hdatabase in Htribute.
      cbn [and_then] in Htribute.
      destruct (py_getitem database (u "mongodb")) as [mongodb|e]; [| discriminate].
      cbn [and_then] in Htribute.
      destruct (connect _) as [[]|e]; [| discriminate]. injection Htribute as <-.
      split; [do 2 right; now left | exact Hentry]. }
  assert (Hm : In minecraft [u "sqlite"; u "mysql"] /\
               entry config (u "minecraft_database") (u "type") = Some (PStr minecraft)).
  { unfold _init_minecraft_db in Hminecraft.
    destruct (py_getitem config (u "minecraft_database")) as [database|e] eqn:Hdatabase;
      [| discriminate]. cbn [and_then] in Hminecraft.
    destruct (py_getitem database (u "type")) as [db_type|e] eqn:Htype; [| discriminate].
    cbn [and_then] in Hminecraft.
    assert (Hentry : entry config (u "minecraft_database") (u "type") = Some db_type)
      by (apply entry_getitem; eauto).
    destruct (py_eq_str db_type (u "sqlite")) eqn:Hsqlite;
      [| destruct (py_eq_str db_type (u "mysql")) eqn:Hmysql; [| discriminate]].
    - apply py_eq_str_true in Hsqlite as ->.
      unfold _init_minecraft_sqlite in Hminecraft. rewrite Hdatabase in Hminecraft.
      cbn [and_then] in Hminecraft.
      destruct (py_getitem database (u "sqlite")) as [sqlite|e]; [| discriminate].
      cbn [and_then] in Hminecraft.
      destruct (py_getitem sqlite (u "path")) as [db_path|e]; [| discriminate].
      cbn [and_then] in Hminecraft.
      destruct (connect _) as [[]|e]; [| discriminate]. injection Hminecraft as <-.
      split; [now left | exact Hentry].
    - apply py_eq_str_true in Hmysql as ->.
      unfold _init_minecraft_mysql in Hminecraft. rewrite Hdatabase in Hminecraft.
      cbn [and_then] in Hminecraft.
      destruct (py_getitem database (u "mysql")) as [mysql|e]; [| discriminate].
      injection Hminecraft as <-.
      split; [right; now left | exact Hentry]. }
  destruct Ht, Hm. auto.
Qed.

End DatabaseProperties.

Lemma database_init_needs_minecraft_database_witness :
  exists e,
    Database.__init__ (H := TestEnv.builtins) TestEnv.backends_up TestEnv.loaded
    = ConfigLoader.Raises e.
Proof.
  apply (database_init_needs_minecraft_database (H := TestEnv.builtins) TestEnv.backends_up
           (u "config.yaml") TestEnv.document TestEnv.environment TestEnv.loaded).
  - vm_compute. reflexivity.
  - vm_compute. reflexivity.
Defined.

Lemma database_init_types_witness :
  In (u "sqlite") [u "sqlite"; u "mysql"; u "mongodb"] /\
  entry TestEnv.loaded_with_minecraft (u "tribute_database") (u "type")
  = Some (PStr (u "sqlite")) /\
  In (u "mysql") [u "sqlite"; u "mysql"] /\
  entry TestEnv.loaded_with_minecraft (u "minecraft_database") (u "type")
  = Some (PStr (u "mysql")).
Proof.
  apply (database_init_types (H := TestEnv.builtins) TestEnv.backends_up
           TestEnv.loaded_with_minecraft (Database.mk (u "sqlite") (u "mysql"))).
  vm_compute. reflexivity.
Defined.
